(** * POS-Sari: sale, credit-ledger and role engine

    A shallow embedding of the store's database layer (the SQL migrations:
    tables, row-level-security policies, triggers and RPC functions) and of
    the two client handlers that drive it: [handleCheckout] of the POS page
    and [handlePayment] of the customers page.

    Conventions.
    - UUIDs are natural numbers; [gen_random_uuid()] is the counter
      [next_uuid] of the database.
    - Money is an integer number of centavos, the resolution of the
      NUMERIC(10,2) columns; the range of that type is not modelled.
    - Timestamps, categories, barcodes and images are left out.
    - A table is the list of its rows in insertion order.
    - The errors modelled are the ones the database raises: a violated
      row-level-security check and a violated foreign key. *)

From Stdlib Require Import List ZArith String Ascii Bool Arith Lia.
Import ListNotations.

Local Open Scope Z_scope.

Definition uuid := nat.
Definition money := Z.

(** [pesos n] is the amount of [n] pesos. *)
Definition pesos (n : Z) : money := 100 * n.

(** ** Strings: the two JavaScript string methods the handlers use,
    on ASCII text. *)
Module Str.

(** White space removed by [String.prototype.trim]: TAB, LF, VT, FF, CR
    and SPACE. *)
Definition is_space (c : ascii) : bool :=
  match nat_of_ascii c with
  | 9%nat | 10%nat | 11%nat | 12%nat | 13%nat | 32%nat => true
  | _ => false
  end.

Fixpoint trimStart (s : string) : string :=
  match s with
  | EmptyString => EmptyString
  | String c s' => if is_space c then trimStart s' else s
  end.

Fixpoint rev_append (s acc : string) : string :=
  match s with
  | EmptyString => acc
  | String c s' => rev_append s' (String c acc)
  end.

Definition rev (s : string) : string := rev_append s EmptyString.

Definition trimEnd (s : string) : string := rev (trimStart (rev s)).

Definition trim (s : string) : string := trimEnd (trimStart s).

Definition lower_ascii (c : ascii) : ascii :=
  let n := nat_of_ascii c in
  if andb (Nat.leb 65 n) (Nat.leb n 90) then ascii_of_nat (n + 32) else c.

Fixpoint toLowerCase (s : string) : string :=
  match s with
  | EmptyString => EmptyString
  | String c s' => String (lower_ascii c) (toLowerCase s')
  end.

(** JavaScript truthiness of a string: the empty string is falsy. *)
Definition truthy (s : string) : bool :=
  match s with EmptyString => false | _ => true end.

End Str.

(** ** The database: schema, policies, triggers *)
Module Db.

Inductive app_role := admin | cashier.

Definition app_role_eqb (a b : app_role) : bool :=
  match a, b with
  | admin, admin | cashier, cashier => true
  | _, _ => false
  end.

(** CHECK (payment_type IN ('cash', 'utang')) *)
Inductive payment_type := cash | utang.

(** CHECK (type IN ('credit', 'payment')) *)
Inductive ledger_type := credit | payment.

(** The two notes the client writes. *)
Inductive note :=
| PosSaleNote (sale_id : uuid)   (* `POS Sale #${sale.id.slice(0, 8)}` *)
| PaymentReceived.               (* 'Payment received' *)

Record product_row := {
  p_id : uuid;
  p_name : string;
  p_cost_price : money;
  p_selling_price : money;
  p_stock_qty : Z;
  p_min_stock_level : Z;
  p_owner_user_id : uuid
}.

Record customer_row := {
  c_id : uuid;
  c_full_name : string;
  c_contact_number : option string;
  c_notes : option string;
  c_owner_user_id : uuid
}.

Record sale_row := {
  s_id : uuid;
  s_payment_type : payment_type;
  s_total : money;
  s_cash_received : option money;
  s_change_amount : option money;
  s_customer_id : option uuid;
  s_cashier_id : uuid
}.

Record sale_item_row := {
  si_id : uuid;
  si_sale_id : uuid;
  si_product_id : uuid;
  si_product_name : string;
  si_quantity : Z;
  si_price : money;
  si_total : money
}.

Record utang_row := {
  u_id : uuid;
  u_customer_id : uuid;
  u_sale_id : option uuid;
  u_amount : money;
  u_type : ledger_type;
  u_note : option note;
  u_created_by : option uuid;
  u_owner_user_id : uuid
}.

Record user_role_row := {
  ur_user_id : uuid;
  ur_role : app_role
}.

Record profile_row := {
  pr_user_id : uuid;
  pr_display_name : string;
  pr_product_pin_hash : option string
}.

Record db := {
  products : list product_row;
  customers : list customer_row;
  sales : list sale_row;
  sale_items : list sale_item_row;
  utang_ledger : list utang_row;
  user_roles : list user_role_row;
  profiles : list profile_row;
  next_uuid : uuid
}.

Definition empty : db :=
  {| products := []; customers := []; sales := []; sale_items := [];
     utang_ledger := []; user_roles := []; profiles := []; next_uuid := 0%nat |}.

Definition set_products (ps : list product_row) (d : db) : db :=
  {| products := ps; customers := customers d; sales := sales d;
     sale_items := sale_items d; utang_ledger := utang_ledger d;
     user_roles := user_roles d; profiles := profiles d;
     next_uuid := next_uuid d |}.

(** Append a row to a table and advance [gen_random_uuid]. *)
Definition add_customer (r : customer_row) (d : db) : db :=
  {| products := products d; customers := customers d ++ [r]; sales := sales d;
     sale_items := sale_items d; utang_ledger := utang_ledger d;
     user_roles := user_roles d; profiles := profiles d;
     next_uuid := S (next_uuid d) |}.

Definition add_product (r : product_row) (d : db) : db :=
  {| products := products d ++ [r]; customers := customers d; sales := sales d;
     sale_items := sale_items d; utang_ledger := utang_ledger d;
     user_roles := user_roles d; profiles := profiles d;
     next_uuid := S (next_uuid d) |}.

Definition add_sale (r : sale_row) (d : db) : db :=
  {| products := products d; customers := customers d; sales := sales d ++ [r];
     sale_items := sale_items d; utang_ledger := utang_ledger d;
     user_roles := user_roles d; profiles := profiles d;
     next_uuid := S (next_uuid d) |}.

Definition add_sale_item (r : sale_item_row) (d : db) : db :=
  {| products := products d; customers := customers d; sales := sales d;
     sale_items := sale_items d ++ [r]; utang_ledger := utang_ledger d;
     user_roles := user_roles d; profiles := profiles d;
     next_uuid := S (next_uuid d) |}.

Definition add_utang (r : utang_row) (d : db) : db :=
  {| products := products d; customers := customers d; sales := sales d;
     sale_items := sale_items d; utang_ledger := utang_ledger d ++ [r];
     user_roles := user_roles d; profiles := profiles d;
     next_uuid := S (next_uuid d) |}.

Definition add_user_role (r : user_role_row) (d : db) : db :=
  {| products := products d; customers := customers d; sales := sales d;
     sale_items := sale_items d; utang_ledger := utang_ledger d;
     user_roles := user_roles d ++ [r]; profiles := profiles d;
     next_uuid := S (next_uuid d) |}.

Definition add_profile (r : profile_row) (d : db) : db :=
  {| products := products d; customers := customers d; sales := sales d;
     sale_items := sale_items d; utang_ledger := utang_ledger d;
     user_roles := user_roles d; profiles := profiles d ++ [r];
     next_uuid := S (next_uuid d) |}.

(** Errors a statement can end with. *)
Inductive pg_error :=
| RlsViolation          (* 42501: new row violates row-level security *)
| ForeignKeyViolation   (* 23503 *)
| NotAuthenticated.     (* RAISE EXCEPTION 'Not authenticated' *)

Inductive result (A : Type) :=
| Ok (a : A)
| Err (e : pg_error).
Arguments Ok {A} a.
Arguments Err {A} e.

(** has_role(_user_id, _role) *)
Definition has_role (user_id : uuid) (role : app_role) (d : db) : bool :=
  existsb (fun r => Nat.eqb (ur_user_id r) user_id && app_role_eqb (ur_role r) role)
          (user_roles d).

(** *** products *)

(** "Users read own products": USING (owner_user_id = auth.uid()) *)
Definition select_products (uid : uuid) (d : db) : list product_row :=
  filter (fun p => Nat.eqb (p_owner_user_id p) uid) (products d).

(** An owner column: the value a request gives it, or the column default
    auth.uid() when the request leaves it out, as every page does. *)
Definition owner_or_default (uid : uuid) (owner_user_id : option uuid) : uuid :=
  match owner_user_id with
  | Some o => o
  | None => uid
  end.

(** The payload of Products.tsx [handleSave] ([pp_owner_user_id] is None
    there). *)
Record product_payload := {
  pp_name : string;
  pp_cost_price : money;
  pp_selling_price : money;
  pp_stock_qty : Z;
  pp_min_stock_level : Z;
  pp_owner_user_id : option uuid
}.

(** "Users insert own products": WITH CHECK (owner_user_id = auth.uid()). *)
Definition insert_product (uid : uuid) (new : product_payload) (d : db) : result db :=
  let owner := owner_or_default uid (pp_owner_user_id new) in
  if negb (Nat.eqb owner uid) then Err RlsViolation
  else
    Ok (add_product {| p_id := next_uuid d; p_name := pp_name new;
                       p_cost_price := pp_cost_price new;
                       p_selling_price := pp_selling_price new;
                       p_stock_qty := pp_stock_qty new;
                       p_min_stock_level := pp_min_stock_level new;
                       p_owner_user_id := owner |} d).

(** The rows update(payload).eq('id', id) reaches. *)
Definition update_product_hits (uid : uuid) (id : uuid) (p : product_row) : bool :=
  Nat.eqb (p_id p) id && Nat.eqb (p_owner_user_id p) uid.

(** "Users update own products": USING (owner_user_id = auth.uid()) selects
    the rows, WITH CHECK (owner_user_id = auth.uid()) must hold of each new
    row; a payload that moves a reached row to another owner fails the
    statement. *)
Definition update_product (uid : uuid) (id : uuid) (new : product_payload) (d : db)
  : result db :=
  let owner := owner_or_default uid (pp_owner_user_id new) in
  if existsb (update_product_hits uid id) (products d) && negb (Nat.eqb owner uid)
  then Err RlsViolation
  else
    Ok (set_products
          (map (fun p =>
                  if update_product_hits uid id p
                  then {| p_id := p_id p; p_name := pp_name new;
                          p_cost_price := pp_cost_price new;
                          p_selling_price := pp_selling_price new;
                          p_stock_qty := pp_stock_qty new;
                          p_min_stock_level := pp_min_stock_level new;
                          p_owner_user_id := owner |}
                  else p)
               (products d))
          d).

(** *** customers *)

(** "Users read own customers" *)
Definition select_customers (uid : uuid) (d : db) : list customer_row :=
  filter (fun c => Nat.eqb (c_owner_user_id c) uid) (customers d).

(** Two INSERT policies stand on customers: "Authenticated add customers"
    WITH CHECK (true), created when customer creation was opened to every
    user and not dropped by the isolation migration, and "Users insert own
    customers" WITH CHECK (owner_user_id = auth.uid()). Permissive policies
    are combined with OR. *)
Definition insert_customers_check (uid : uuid) (owner : uuid) : bool :=
  true || Nat.eqb owner uid.

(** The row returned is the one .select().single() reads back. *)
Definition insert_customer (uid : uuid) (full_name : string)
           (contact_number notes : option string) (owner_user_id : option uuid)
           (d : db)
  : result (customer_row * db) :=
  let owner := owner_or_default uid owner_user_id in
  if negb (insert_customers_check uid owner) then Err RlsViolation
  else
    let row := {| c_id := next_uuid d; c_full_name := full_name;
                  c_contact_number := contact_number; c_notes := notes;
                  c_owner_user_id := owner |} in
    Ok (row, add_customer row d).

(** *** sales *)

Record sale_payload := {
  sp_payment_type : payment_type;
  sp_total : money;
  sp_cash_received : option money;
  sp_change_amount : option money;
  sp_customer_id : option uuid;
  sp_cashier_id : uuid
}.

Definition customer_exists (id : uuid) (d : db) : bool :=
  existsb (fun c => Nat.eqb (c_id c) id) (customers d).

Definition product_exists (id : uuid) (d : db) : bool :=
  existsb (fun p => Nat.eqb (p_id p) id) (products d).

Definition sale_exists (id : uuid) (d : db) : bool :=
  existsb (fun s => Nat.eqb (s_id s) id) (sales d).

(** "Authenticated insert sales": WITH CHECK (cashier_id = auth.uid());
    customer_id REFERENCES customers(id). *)
Definition insert_sale (uid : uuid) (new : sale_payload) (d : db)
  : result (sale_row * db) :=
  if negb (Nat.eqb (sp_cashier_id new) uid) then Err RlsViolation
  else if negb (match sp_customer_id new with
                | Some c => customer_exists c d
                | None => true
                end) then Err ForeignKeyViolation
  else
    let row := {| s_id := next_uuid d;
                  s_payment_type := sp_payment_type new;
                  s_total := sp_total new;
                  s_cash_received := sp_cash_received new;
                  s_change_amount := sp_change_amount new;
                  s_customer_id := sp_customer_id new;
                  s_cashier_id := sp_cashier_id new |} in
    Ok (row, add_sale row d).

(** "Read own or admin sales" *)
Definition select_sales (uid : uuid) (d : db) : list sale_row :=
  filter (fun s => Nat.eqb (s_cashier_id s) uid || has_role uid admin d) (sales d).

(** *** sale_items *)

Record sale_item_payload := {
  sip_sale_id : uuid;
  sip_product_id : uuid;
  sip_product_name : string;
  sip_quantity : Z;
  sip_price : money;
  sip_total : money
}.

(** Trigger function deduct_stock_on_sale (SECURITY DEFINER):
    UPDATE products SET stock_qty = stock_qty - NEW.quantity
    WHERE id = NEW.product_id. *)
Definition deduct_stock_on_sale (new : sale_item_row) (d : db) : db :=
  set_products
    (map (fun p =>
            if Nat.eqb (p_id p) (si_product_id new)
            then {| p_id := p_id p; p_name := p_name p;
                    p_cost_price := p_cost_price p;
                    p_selling_price := p_selling_price p;
                    p_stock_qty := p_stock_qty p - si_quantity new;
                    p_min_stock_level := p_min_stock_level p;
                    p_owner_user_id := p_owner_user_id p |}
            else p)
         (products d))
    d.

(** "Insert sale items": WITH CHECK (EXISTS (SELECT 1 FROM sales WHERE
    sales.id = sale_items.sale_id AND (sales.cashier_id = auth.uid() OR
    has_role(auth.uid(), 'admin')))). *)
Definition insert_sale_items_check (uid : uuid) (new : sale_item_payload) (d : db) : bool :=
  existsb (fun s => Nat.eqb (s_id s) (sip_sale_id new)
                    && (Nat.eqb (s_cashier_id s) uid || has_role uid admin d))
          (sales d).

(** One row of an INSERT INTO sale_items: policy, foreign keys, the row,
    then the AFTER INSERT trigger on_sale_item_insert. *)
Definition insert_sale_item_row (uid : uuid) (new : sale_item_payload) (d : db)
  : result db :=
  if negb (insert_sale_items_check uid new d) then Err RlsViolation
  else if negb (sale_exists (sip_sale_id new) d && product_exists (sip_product_id new) d)
  then Err ForeignKeyViolation
  else
    let row := {| si_id := next_uuid d;
                  si_sale_id := sip_sale_id new;
                  si_product_id := sip_product_id new;
                  si_product_name := sip_product_name new;
                  si_quantity := sip_quantity new;
                  si_price := sip_price new;
                  si_total := sip_total new |} in
    Ok (deduct_stock_on_sale row (add_sale_item row d)).

(** insert(items): one statement for all rows; the first failing row
    aborts the statement and none of its rows or trigger effects stay.
    (The database queues the row triggers to the end of the statement; as
    they write products only and the checks read sales and product ids
    only, running each with its row gives the same result.) *)
Fixpoint insert_sale_items (uid : uuid) (news : list sale_item_payload) (d : db)
  : result db :=
  match news with
  | [] => Ok d
  | new :: rest =>
      match insert_sale_item_row uid new d with
      | Ok d' => insert_sale_items uid rest d'
      | Err e => Err e
      end
  end.

(** *** utang_ledger *)

(** "Users read own utang" *)
Definition select_utang (uid : uuid) (d : db) : list utang_row :=
  filter (fun u => Nat.eqb (u_owner_user_id u) uid) (utang_ledger d).

Record utang_payload := {
  up_customer_id : uuid;
  up_sale_id : option uuid;
  up_amount : money;
  up_type : ledger_type;
  up_note : option note;
  up_created_by : option uuid;
  up_owner_user_id : option uuid
}.

(** "Users insert own utang":
    WITH CHECK (owner_user_id = auth.uid() AND created_by = auth.uid()
    AND EXISTS (customer c with c.id = customer_id owned by auth.uid())
    AND (sale_id IS NULL OR EXISTS (sale s with s.id = sale_id and
    s.cashier_id = auth.uid()))). *)
Definition insert_utang_check (uid : uuid) (new : utang_payload) (d : db) : bool :=
  Nat.eqb (owner_or_default uid (up_owner_user_id new)) uid
  && match up_created_by new with
     | Some u => Nat.eqb u uid
     | None => false
     end
  && existsb (fun c => Nat.eqb (c_id c) (up_customer_id new)
                       && Nat.eqb (c_owner_user_id c) uid)
             (customers d)
  && match up_sale_id new with
     | None => true
     | Some sid => existsb (fun s => Nat.eqb (s_id s) sid && Nat.eqb (s_cashier_id s) uid)
                           (sales d)
     end.

Definition insert_utang (uid : uuid) (new : utang_payload) (d : db) : result db :=
  if negb (insert_utang_check uid new d) then Err RlsViolation
  else if negb (customer_exists (up_customer_id new) d
                && match up_sale_id new with
                   | None => true
                   | Some sid => sale_exists sid d
                   end)
  then Err ForeignKeyViolation
  else
    Ok (add_utang {| u_id := next_uuid d;
                     u_customer_id := up_customer_id new;
                     u_sale_id := up_sale_id new;
                     u_amount := up_amount new;
                     u_type := up_type new;
                     u_note := up_note new;
                     u_created_by := up_created_by new;
                     u_owner_user_id := owner_or_default uid (up_owner_user_id new) |}
                  d).

End Db.

(** ** The POS page (its handlers) *)
Module POS.
Import Db.

(** interface CartItem { product: Product; quantity: number }: the product
    is the row as the page loaded it, a copy held by the client. *)
Record CartItem := {
  product : product_row;
  quantity : Z
}.

(** interface Customer { id; full_name } *)
Record Customer := {
  id : uuid;
  full_name : string
}.

(** The React state the handlers read; [cashReceived] is
    Number(cashReceived) of the numeric input. *)
Record state := {
  cart : list CartItem;
  customers : list Customer;
  paymentType : payment_type;
  cashReceived : money;
  utangCustomerName : string
}.

Definition set_customers (cs : list Customer) (st : state) : state :=
  {| cart := cart st; customers := cs; paymentType := paymentType st;
     cashReceived := cashReceived st; utangCustomerName := utangCustomerName st |}.

(** supabase.from('products').select(...) as the signed-in user *)
Definition fetchProducts (uid : uuid) (d : db) : list product_row :=
  select_products uid d.

(** supabase.from('customers').select('id, full_name') *)
Definition fetchCustomers (uid : uuid) (d : db) : list Customer :=
  map (fun c => {| id := c_id c; full_name := c_full_name c |})
      (select_customers uid d).

Definition set_quantity (q : Z) (c : CartItem) : CartItem :=
  {| product := product c; quantity := q |}.

Definition addToCart (p : product_row) (prev : list CartItem) : list CartItem :=
  match find (fun c => Nat.eqb (p_id (product c)) (p_id p)) prev with
  | Some existing =>
      if quantity existing >=? p_stock_qty p then prev
      else map (fun c => if Nat.eqb (p_id (product c)) (p_id p)
                         then set_quantity (quantity c + 1) c else c) prev
  | None => prev ++ [{| product := p; quantity := 1 |}]
  end.

Definition updateQty (productId : uuid) (delta : Z) (prev : list CartItem)
  : list CartItem :=
  map (fun c =>
         if negb (Nat.eqb (p_id (product c)) productId) then c
         else
           let newQty := quantity c + delta in
           if (newQty <=? 0) || (newQty >? p_stock_qty (product c)) then c
           else set_quantity newQty c)
      prev.

Definition removeFromCart (productId : uuid) (prev : list CartItem) : list CartItem :=
  filter (fun c => negb (Nat.eqb (p_id (product c)) productId)) prev.

(** cart.reduce((sum, c) => sum + c.product.selling_price * c.quantity, 0) *)
Definition subtotal (c : list CartItem) : money :=
  fold_left (fun sum c => sum + p_selling_price (product c) * quantity c) c 0.

(** paymentType === 'cash' ? Math.max(0, Number(cashReceived) - subtotal) : 0 *)
Definition change (st : state) : money :=
  match paymentType st with
  | cash => Z.max 0 (cashReceived st - subtotal (cart st))
  | utang => 0
  end.

Definition is_cash (t : payment_type) : bool :=
  match t with cash => true | utang => false end.

Definition is_utang (t : payment_type) : bool :=
  match t with cash => false | utang => true end.

Inductive outcome :=
| NoOp                                   (* cart.length === 0: plain return *)
| InsufficientCash                       (* toast 'Insufficient cash' *)
| EnterCustomerName                      (* toast 'Enter customer name' *)
| ErrorCreatingCustomer (e : pg_error)   (* toast 'Error creating customer' *)
| ErrorCreatingSale (e : pg_error)       (* toast 'Error creating sale' *)
| ErrorSavingItems (e : pg_error)        (* toast 'Error saving items' *)
| SaleCompleted (sale : sale_row).       (* setLastSale(sale); receipt shown *)

(** customers.find(c => c.full_name.trim().toLowerCase()
                        === normalizedUtangName.toLowerCase()) *)
Definition findCustomer (normalizedUtangName : string) (cs : list Customer)
  : option Customer :=
  find (fun c => String.eqb (Str.toLowerCase (Str.trim (full_name c)))
                            (Str.toLowerCase normalizedUtangName))
       cs.

(** Lines 117-138: the customer of an utang sale, looked up in the page's
    customer list and created when absent. *)
Definition resolveCustomer (uid : uuid) (st : state) (d : db)
  : result (option uuid * state * db) :=
  let normalizedUtangName := Str.trim (utangCustomerName st) in
  match paymentType st with
  | cash => Ok (None, st, d)
  | utang =>
      match findCustomer normalizedUtangName (customers st) with
      | Some existingCustomer => Ok (Some (id existingCustomer), st, d)
      | None =>
          match insert_customer uid normalizedUtangName None None None d with
          | Err e => Err e
          | Ok (newCustomer, d') =>
              let c := {| id := c_id newCustomer;
                          full_name := c_full_name newCustomer |} in
              Ok (Some (id c), set_customers (customers st ++ [c]) st, d')
          end
      end
  end.

(** The rows of the sale_items insert, copied from the cart. *)
Definition items (sale : sale_row) (c : list CartItem) : list sale_item_payload :=
  map (fun c => {| sip_sale_id := s_id sale;
                   sip_product_id := p_id (product c);
                   sip_product_name := p_name (product c);
                   sip_quantity := quantity c;
                   sip_price := p_selling_price (product c);
                   sip_total := p_selling_price (product c) * quantity c |})
      c.

Definition salePayload (uid : uuid) (st : state) (customerId : option uuid)
  : sale_payload :=
  {| sp_payment_type := paymentType st;
     sp_total := subtotal (cart st);
     sp_cash_received := if is_cash (paymentType st) then Some (cashReceived st) else None;
     sp_change_amount := if is_cash (paymentType st) then Some (change st) else None;
     sp_customer_id := if is_utang (paymentType st) then customerId else None;
     sp_cashier_id := uid |}.

Definition ledgerPayload (uid : uuid) (st : state) (customerId : uuid) (sale : sale_row)
  : utang_payload :=
  {| up_customer_id := customerId;
     up_sale_id := Some (s_id sale);
     up_amount := subtotal (cart st);
     up_type := credit;
     up_note := Some (PosSaleNote (s_id sale));
     up_created_by := Some uid;
     up_owner_user_id := None |}.

(** Lines 165-175: the ledger insert is awaited and its result dropped. *)
Definition postLedger (uid : uuid) (st : state) (customerId : option uuid)
           (sale : sale_row) (d : db) : db :=
  match paymentType st, customerId with
  | utang, Some cid =>
      match insert_utang uid (ledgerPayload uid st cid sale) d with
      | Ok d' => d'
      | Err _ => d
      end
  | _, _ => d
  end.

(** [uid] is user!.id of the signed-in user, who is also the principal of
    every request. *)
Definition handleCheckout (uid : uuid) (st : state) (d : db)
  : outcome * state * db :=
  match cart st with
  | [] => (NoOp, st, d)
  | _ :: _ =>
      if is_cash (paymentType st) && (cashReceived st <? subtotal (cart st))
      then (InsufficientCash, st, d)
      else if is_utang (paymentType st)
              && negb (Str.truthy (Str.trim (utangCustomerName st)))
      then (EnterCustomerName, st, d)
      else
        match resolveCustomer uid st d with
        | Err e => (ErrorCreatingCustomer e, st, d)
        | Ok (customerId, st1, d1) =>
            match insert_sale uid (salePayload uid st customerId) d1 with
            | Err e => (ErrorCreatingSale e, st1, d1)
            | Ok (sale, d2) =>
                match insert_sale_items uid (items sale (cart st)) d2 with
                | Err e => (ErrorSavingItems e, st1, d2)
                | Ok d3 =>
                    (SaleCompleted sale, st1, postLedger uid st customerId sale d3)
                end
            end
        end
  end.

End POS.

(** ** The customers page (its handlers) *)
Module Customers.
Import Db.

Record Customer := {
  id : uuid;
  full_name : string;
  contact_number : option string;
  notes : option string;
  totalBalance : money
}.

Record state := {
  customers : list Customer;
  selectedCustomer : option Customer;
  paymentAmount : money           (* Number(paymentAmount) *)
}.

(** const balances: Record<string, number>: an object keyed by customer id;
    a missing key reads as undefined. *)
Definition balances_t := uuid -> option money.

Definition no_balances : balances_t := fun _ => None.

Definition set_balance (k : uuid) (v : money) (b : balances_t) : balances_t :=
  fun k' => if Nat.eqb k' k then Some v else b k'.

Definition signed_amount (u : utang_row) : money :=
  match u_type u with
  | credit => u_amount u
  | payment => - u_amount u
  end.

(** The body of the forEach: if (!balances[id]) balances[id] = 0;
    balances[id] += type === 'credit' ? amount : -amount. *)
Definition accumulate (b : balances_t) (u : utang_row) : balances_t :=
  let id := u_customer_id u in
  let cur := match b id with
             | Some v => if v =? 0 then 0 else v
             | None => 0
             end in
  set_balance id (cur + signed_amount u) b.

Definition balances (utangData : list utang_row) : balances_t :=
  fold_left accumulate utangData no_balances.

(** balances[c.id] || 0 *)
Definition balance_or_zero (b : balances_t) (k : uuid) : money :=
  match b k with
  | Some v => v
  | None => 0
  end.

(** The order('full_name') of the customers query is left out: nothing
    below depends on the order of the list. *)
Definition fetchCustomers (uid : uuid) (d : db) : list Customer :=
  let custData := select_customers uid d in
  let utangData := select_utang uid d in
  let b := balances utangData in
  map (fun c => {| id := c_id c; full_name := c_full_name c;
                   contact_number := c_contact_number c; notes := c_notes c;
                   totalBalance := Z.max 0 (balance_or_zero b (c_id c)) |})
      custData.

Definition set_totalBalance (v : money) (c : Customer) : Customer :=
  {| id := id c; full_name := full_name c; contact_number := contact_number c;
     notes := notes c; totalBalance := v |}.

Inductive outcome :=
| InvalidPaymentAmount            (* toast 'Invalid payment amount' *)
| PaymentError (e : pg_error)     (* toast error.message *)
| PaymentRecorded (amount : money).

Definition paymentPayload (uid : uuid) (sel : Customer) (amount : money)
  : utang_payload :=
  {| up_customer_id := id sel;
     up_sale_id := None;
     up_amount := amount;
     up_type := payment;
     up_note := Some PaymentReceived;
     up_created_by := Some uid;
     up_owner_user_id := None |}.

Definition handlePayment (uid : uuid) (st : state) (d : db)
  : outcome * state * db :=
  let amount := paymentAmount st in
  match selectedCustomer st with
  | None => (InvalidPaymentAmount, st, d)
  | Some sel =>
      if (amount <=? 0) || (amount >? totalBalance sel)
      then (InvalidPaymentAmount, st, d)
      else
        match insert_utang uid (paymentPayload uid sel amount) d with
        | Err e => (PaymentError e, st, d)
        | Ok d' =>
            (PaymentRecorded amount,
             {| customers := fetchCustomers uid d';
                selectedCustomer :=
                  Some (set_totalBalance (totalBalance sel - amount) sel);
                paymentAmount := 0 |},
             d')
        end
  end.

End Customers.

(** ** Role bootstrap: the RPC ensure_my_role() *)
Module Roles.
Import Db.

(** SELECT role INTO existing_role FROM user_roles
    WHERE user_id = current_user_id LIMIT 1 *)
Definition existing_role (current_user_id : uuid) (d : db) : option app_role :=
  option_map ur_role
             (find (fun r => Nat.eqb (ur_user_id r) current_user_id) (user_roles d)).

(** SELECT EXISTS (SELECT 1 FROM user_roles WHERE role = 'admin') *)
Definition has_admin (d : db) : bool :=
  existsb (fun r => app_role_eqb (ur_role r) admin) (user_roles d).

(** CASE WHEN has_admin THEN 'cashier' ELSE 'admin' END *)
Definition assigned_role (has_admin : bool) : app_role :=
  if has_admin then cashier else admin.

(** INSERT INTO user_roles (user_id, role) VALUES (...)
    ON CONFLICT (user_id, role) DO NOTHING *)
Definition insert_user_role (user_id : uuid) (role : app_role) (d : db) : db :=
  if has_role user_id role d then d
  else add_user_role {| ur_user_id := user_id; ur_role := role |} d.

(** The function body run without interruption; [auth_uid] is auth.uid(),
    NULL for a request without a session. *)
Definition ensure_my_role (auth_uid : option uuid) (d : db) : result (app_role * db) :=
  match auth_uid with
  | None => Err NotAuthenticated
  | Some current_user_id =>
      match existing_role current_user_id d with
      | Some r => Ok (r, d)
      | None =>
          let r := assigned_role (has_admin d) in
          Ok (r, insert_user_role current_user_id r d)
      end
  end.

(** *** Statement-level execution

    The same body one SQL statement at a time, so that two calls can be
    interleaved. A statement of one call sees every row written before it
    (a schedule of a database under READ COMMITTED where each call commits
    at once; later commits only hide more from the other call). *)
Inductive pc :=
| Entered                              (* before the first SELECT *)
| NoExistingRole                       (* existing_role IS NULL *)
| AdminChecked (has_admin : bool)      (* has_admin fetched *)
| Returned (r : app_role)
| Raised (e : pg_error).

Record call := {
  caller : option uuid;
  at_pc : pc
}.

Definition goto (p : pc) (c : call) : call :=
  {| caller := caller c; at_pc := p |}.

Definition start (auth_uid : option uuid) : call :=
  {| caller := auth_uid; at_pc := Entered |}.

Definition step (c : call) (d : db) : call * db :=
  match caller c with
  | None =>
      match at_pc c with
      | Entered => (goto (Raised NotAuthenticated) c, d)
      | _ => (c, d)
      end
  | Some current_user_id =>
      match at_pc c with
      | Entered =>
          match existing_role current_user_id d with
          | Some r => (goto (Returned r) c, d)
          | None => (goto NoExistingRole c, d)
          end
      | NoExistingRole => (goto (AdminChecked (has_admin d)) c, d)
      | AdminChecked b =>
          (goto (Returned (assigned_role b)) c,
           insert_user_role current_user_id (assigned_role b) d)
      | Returned _ | Raised _ => (c, d)
      end
  end.

(** Who runs the next statement. *)
Inductive turn := First | Second.

Fixpoint run (schedule : list turn) (c1 c2 : call) (d : db) : call * call * db :=
  match schedule with
  | [] => (c1, c2, d)
  | First :: rest => let '(c1', d') := step c1 d in run rest c1' c2 d'
  | Second :: rest => let '(c2', d') := step c2 d in run rest c1 c2' d'
  end.

(** The roles a principal holds. *)
Definition holds (user_id : uuid) (role : app_role) (d : db) : bool :=
  has_role user_id role d.

End Roles.

(** ** Product PIN: the signup trigger and the RPC verify_my_product_pin *)
Module Pin.
Import Db.

Section WithPgcrypto.

(** pgcrypto: crypt(password, salt) and the salt drawn by gen_salt('bf'). *)
Variable crypt : string -> string -> string.
Variable gen_salt_bf : string.

(** The auth.users row the trigger receives as NEW. *)
Record auth_user := {
  au_id : uuid;
  au_email : string;
  au_meta_display_name : option string;   (* raw_user_meta_data->>'display_name' *)
  au_meta_product_pin : option string     (* raw_user_meta_data->>'product_pin' *)
}.

Definition coalesce (o : option string) (dflt : string) : string :=
  match o with
  | Some s => s
  | None => dflt
  end.

(** CASE WHEN raw_pin <> '' THEN crypt(raw_pin, gen_salt('bf')) ELSE NULL END *)
Definition pin_hash (raw_pin : string) : option string :=
  if String.eqb raw_pin EmptyString then None
  else Some (crypt raw_pin gen_salt_bf).

Definition handle_new_user (new : auth_user) (d : db) : db :=
  let raw_pin := coalesce (au_meta_product_pin new) EmptyString in
  add_profile {| pr_user_id := au_id new;
                 pr_display_name := coalesce (au_meta_display_name new) (au_email new);
                 pr_product_pin_hash := pin_hash raw_pin |} d.

(** SELECT EXISTS (SELECT 1 FROM profiles p WHERE p.user_id = auth.uid()
    AND p.product_pin_hash IS NOT NULL
    AND p.product_pin_hash = crypt(_pin, p.product_pin_hash)) *)
Definition verify_my_product_pin (auth_uid : option uuid) (_pin : string) (d : db)
  : bool :=
  existsb (fun p =>
             match auth_uid with
             | Some uid => Nat.eqb (pr_user_id p) uid
             | None => false
             end
             && match pr_product_pin_hash p with
                | Some h => String.eqb h (crypt _pin h)
                | None => false
                end)
          (profiles d).

End WithPgcrypto.

End Pin.

(** ** The data layer as the clients reach it

    The requests the pages send, each run as the authenticated principal
    [uid] under the policies above. *)
Module Api.
Import Db.

Inductive request :=
| SelectProducts
| InsertProduct (new : product_payload)
| UpdateProduct (id : uuid) (new : product_payload)
| SelectCustomers
| InsertCustomer (full_name : string) (contact_number notes : option string)
                 (owner_user_id : option uuid)
| SelectUtang
| InsertUtang (new : utang_payload)
| SelectSales
| InsertSale (new : sale_payload)
| InsertSaleItems (news : list sale_item_payload).

Inductive response :=
| ProductRows (rows : list product_row)
| CustomerRows (rows : list customer_row)
| UtangRows (rows : list utang_row)
| SaleRows (rows : list sale_row)
| Done
| Failed (e : pg_error).

Definition exec (uid : uuid) (r : request) (d : db) : response * db :=
  match r with
  | SelectProducts => (ProductRows (select_products uid d), d)
  | InsertProduct new =>
      match insert_product uid new d with
      | Ok d' => (Done, d')
      | Err e => (Failed e, d)
      end
  | UpdateProduct id new =>
      match update_product uid id new d with
      | Ok d' => (Done, d')
      | Err e => (Failed e, d)
      end
  | SelectCustomers => (CustomerRows (select_customers uid d), d)
  | InsertCustomer full_name contact_number notes owner_user_id =>
      match insert_customer uid full_name contact_number notes owner_user_id d with
      | Ok (_, d') => (Done, d')
      | Err e => (Failed e, d)
      end
  | SelectUtang => (UtangRows (select_utang uid d), d)
  | InsertUtang new =>
      match insert_utang uid new d with
      | Ok d' => (Done, d')
      | Err e => (Failed e, d)
      end
  | SelectSales => (SaleRows (select_sales uid d), d)
  | InsertSale new =>
      match insert_sale uid new d with
      | Ok (row, d') => (SaleRows [row], d')
      | Err e => (Failed e, d)
      end
  | InsertSaleItems news =>
      match insert_sale_items uid news d with
      | Ok d' => (Done, d')
      | Err e => (Failed e, d)
      end
  end.

(** The rows of the three owned tables that belong to somebody else. *)
Definition foreign_products (uid : uuid) (d : db) : list product_row :=
  filter (fun p => negb (Nat.eqb (p_owner_user_id p) uid)) (products d).

Definition foreign_customers (uid : uuid) (d : db) : list customer_row :=
  filter (fun c => negb (Nat.eqb (c_owner_user_id c) uid)) (customers d).

Definition foreign_utang (uid : uuid) (d : db) : list utang_row :=
  filter (fun u => negb (Nat.eqb (u_owner_user_id u) uid)) (utang_ledger d).

(** A response shows only rows of the principal. *)
Definition shows_only_own (uid : uuid) (r : response) : Prop :=
  match r with
  | ProductRows rows => forall p, In p rows -> p_owner_user_id p = uid
  | CustomerRows rows => forall c, In c rows -> c_owner_user_id c = uid
  | UtangRows rows => forall u, In u rows -> u_owner_user_id u = uid
  | SaleRows _ | Done | Failed _ => True
  end.

(** A request of [uid] neither shows nor changes a row of another owner. *)
Definition isolated (uid : uuid) (r : request) (d : db) : Prop :=
  let '(resp, d') := exec uid r d in
  shows_only_own uid resp
  /\ foreign_products uid d' = foreign_products uid d
  /\ foreign_customers uid d' = foreign_customers uid d
  /\ foreign_utang uid d' = foreign_utang uid d.

(** The requests decided by the owner policies alone: every request but the
    sale_items insert, whose trigger writes products, and a customer insert
    that names another owner, which "Authenticated add customers" lets
    pass. *)
Definition under_owner_policies (uid : uuid) (r : request) : Prop :=
  match r with
  | InsertSaleItems _ => False
  | InsertCustomer _ _ _ (Some o) => o = uid
  | _ => True
  end.

End Api.

(** ** Vocabulary of the specification

    The notions the specification states its properties with, written
    after its words; the properties below relate them to the code. *)
Module Spec.
Import Db.


(** The quantity of product [pid] sold by a cart. *)
Definition quantity_sold (c : list POS.CartItem) (pid : uuid) : Z :=
  fold_right Z.add 0
             (map POS.quantity
                  (filter (fun l => Nat.eqb (p_id (POS.product l)) pid) c)).

(** A product with its stock replaced. *)
Definition with_stock (q : Z) (p : product_row) : product_row :=
  {| p_id := p_id p; p_name := p_name p; p_cost_price := p_cost_price p;
     p_selling_price := p_selling_price p; p_stock_qty := q;
     p_min_stock_level := p_min_stock_level p;
     p_owner_user_id := p_owner_user_id p |}.

(** The committed stock of product [pid], when it exists. *)
Definition stock_of (pid : uuid) (d : db) : option Z :=
  option_map p_stock_qty (find (fun p => Nat.eqb (p_id p) pid) (products d)).

(** The rows a successful insert adds, numbered from [n]. *)
Fixpoint item_rows (n : uuid) (news : list sale_item_payload) : list sale_item_row :=
  match news with
  | [] => []
  | new :: rest =>
      {| si_id := n; si_sale_id := sip_sale_id new;
         si_product_id := sip_product_id new;
         si_product_name := sip_product_name new;
         si_quantity := sip_quantity new; si_price := sip_price new;
         si_total := sip_total new |} :: item_rows (S n) rest
  end.

(** The quantity of product [pid] in the rows of an insert. *)
Definition quantity_in (news : list sale_item_payload) (pid : uuid) : Z :=
  fold_right Z.add 0
             (map sip_quantity
                  (filter (fun n => Nat.eqb (sip_product_id n) pid) news)).

(** A later edit of a product: who edits, which product, the new
    values; and a sequence of such edits. *)
Definition product_edit : Type := uuid * uuid * product_payload.

Definition apply_edit (d : db) (e : product_edit) : db :=
  match update_product (fst (fst e)) (snd (fst e)) (snd e) d with
  | Ok d' => d'
  | Err _ => d
  end.

Definition apply_edits (edits : list product_edit) (d : db) : db :=
  fold_left apply_edit edits d.



(** Σcredit and Σpayment of a customer over the ledger entries the
    principal can see. *)
Definition sum_of (t : ledger_type) (customer_id : uuid) (entries : list utang_row)
  : money :=
  fold_right Z.add 0
             (map u_amount
                  (filter (fun u => Nat.eqb (u_customer_id u) customer_id
                                    && match u_type u, t with
                                       | credit, credit | payment, payment => true
                                       | _, _ => false
                                       end)
                          entries)).

(** currentBalance = max(0, Σcredit − Σpayment) *)
Definition currentBalance (uid : uuid) (customer_id : uuid) (d : db) : money :=
  Z.max 0 (sum_of credit customer_id (select_utang uid d)
           - sum_of payment customer_id (select_utang uid d)).

End Spec.

(** ** Blank text *)
Module Blank.

(** Text made of white space only (the empty text included). *)
Fixpoint all_space (s : string) : bool :=
  match s with
  | EmptyString => true
  | String c s' => Str.is_space c && all_space s'
  end.

End Blank.

(** ** The cart header of the POS page *)
Module Cart.
Import Db POS.

(** cart.reduce((s, c) => s + c.quantity, 0): the "n items" badge. *)
Definition itemCount (c : list CartItem) : Z :=
  fold_left (fun s c => s + quantity c) c 0.

(** The products a cart holds lines for. *)
Definition ids (c : list CartItem) : list uuid :=
  map (fun l => p_id (product l)) c.

End Cart.

(** ** The transactions page *)
Module Transactions.
Import Db.




Definition payment_type_eqb (a b : payment_type) : bool :=
  match a, b with
  | cash, cash | utang, utang => true
  | _, _ => false
  end.

(** filterPayment is 'all' (None here), 'cash' or 'utang'. *)
Definition filtered (filterPayment : option payment_type) (sales : list sale_row)
  : list sale_row :=
  filter (fun s => match filterPayment with
                   | None => true
                   | Some t => payment_type_eqb (s_payment_type s) t
                   end)
         sales.


End Transactions.

(** ** The dashboard (the figures that do not depend on the date) *)
Module Dashboard.
Import Db.


(** Math.max(0, utangData.reduce((sum, u) => sum + (u.type === 'credit' ?
    Number(u.amount) : -Number(u.amount)), 0)) *)
Definition totalReceivables (utangData : list utang_row) : money :=
  Z.max 0 (fold_left (fun sum u => sum + Customers.signed_amount u) utangData 0).

(** products.filter(p => p.stock_qty <= p.min_stock_level) *)
Definition lowStock (ps : list product_row) : list product_row :=
  filter (fun p => p_stock_qty p <=? p_min_stock_level p) ps.

End Dashboard.

(** ** The customers page: adding a customer, the history of one *)
Module CustomerForm.
Import Db.

Record form := {
  fullName : string;
  contactNumber : string;
  notes : string
}.


Inductive outcome :=
| NameRequired              (* toast 'Name is required' *)
| AddError (e : pg_error)   (* toast error.message *)
| CustomerAdded.            (* toast 'Customer added' *)


(** select('*').eq('customer_id', customerId).order('created_at',
    { ascending: false }) *)
Definition fetchUtang (uid : uuid) (customerId : uuid) (d : db) : list utang_row :=
  rev (filter (fun u => Nat.eqb (u_customer_id u) customerId) (select_utang uid d)).

(** customers.reduce((s, c) => s + c.totalBalance, 0) *)
Definition totalReceivables (cs : list Customers.Customer) : money :=
  fold_left (fun s c => s + Customers.totalBalance c) cs 0.

End CustomerForm.

(** ** The utang payments page: the list of debtors *)
Module UtangPayments.
Import Db.



End UtangPayments.

(** ** The role bootstrap edge function (the service-role variant) *)
Module EdgeRole.
Import Db.

Inductive response :=
| Unauthorized401          (* { error: "Unauthorized" }, status 401 *)
| RoleJson (r : app_role)  (* { role } *)
| Error500.                (* { error: insertError.message }, status 500 *)

(** .maybeSingle(): the row when there is exactly one; data is null both
    for no row and for several (which also sets error, not looked at). *)
Definition maybeSingle {A : Type} (rows : list A) : option A :=
  match rows with
  | [x] => Some x
  | _ => None
  end.

(** [user] is the user of supabase.auth.getUser(token), None on authError.
    The client holds the service-role key, so no policy applies; the
    insert fails on UNIQUE (user_id, role). *)
Definition ensure_role (user : option uuid) (d : db) : response * db :=
  match user with
  | None => (Unauthorized401, d)
  | Some u =>
      match maybeSingle (filter (fun r => Nat.eqb (ur_user_id r) u) (user_roles d)) with
      | Some existingRole => (RoleJson (ur_role existingRole), d)
      | None =>
          let admins := filter (fun r => app_role_eqb (ur_role r) admin) (user_roles d) in
          let role := match admins with [] => admin | _ :: _ => cashier end in
          if has_role u role d then (Error500, d)
          else (RoleJson role, add_user_role {| ur_user_id := u; ur_role := role |} d)
      end
  end.

End EdgeRole.

(** ** The auth context: the role of the signed-in user *)
Module AuthCtx.
Import Db.

Record ctx := {
  role : option app_role;
  ensureRoleRpcUnavailable : bool     (* ensureRoleRpcUnavailableRef.current *)
}.

Definition set_role (r : option app_role) (c : ctx) : ctx :=
  {| role := r; ensureRoleRpcUnavailable := ensureRoleRpcUnavailable c |}.

Definition set_unavailable (b : bool) (c : ctx) : ctx :=
  {| role := role c; ensureRoleRpcUnavailable := b |}.

(** "Read own role": USING (auth.uid() = user_id OR has_role(auth.uid(),
    'admin')) *)
Definition select_user_roles (uid : uuid) (d : db) : list user_role_row :=
  filter (fun r => Nat.eqb uid (ur_user_id r) || has_role uid admin d) (user_roles d).

(** select('role').eq('user_id', userId).maybeSingle(), sent by the
    signed-in user [userId]: no row gives null and setRole(null); one row
    its role; several rows an error, and the function returns null before
    setRole. *)
Definition fetchRole (userId : uuid) (c : ctx) (d : db) : option app_role * ctx :=
  match filter (fun r => Nat.eqb (ur_user_id r) userId) (select_user_roles userId d) with
  | [] => (None, set_role None c)
  | [r] => (Some (ur_role r), set_role (Some (ur_role r)) c)
  | _ :: _ :: _ => (None, c)
  end.

(** [rpc_deployed] tells whether the database has the function
    ensure_my_role (otherwise the call answers 404 / PGRST202 / 42883). *)
Definition ensureRole (rpc_deployed : bool) (userId : uuid) (c : ctx) (d : db)
  : ctx * db :=
  let '(existingRole, c1) := fetchRole userId c d in
  match existingRole with
  | Some _ => (c1, d)
  | None =>
      if ensureRoleRpcUnavailable c1 then (c1, d)
      else if negb rpc_deployed then (set_unavailable true c1, d)
      else
        match Roles.ensure_my_role (Some userId) d with
        | Err _ => (c1, d)
        | Ok (_, d') => let '(_, c2) := fetchRole userId c1 d' in (c2, d')
        end
  end.

End AuthCtx.

(** ** The products page: the PIN dialog, the form, save and delete

    The list the page shows is left out; a numeric input holds either
    nothing or a number. *)
Module ProductsPage.
Import Db.

Inductive field :=
| Blank
| Num (z : Z).

(** !!form.x for the text of a numeric input: '0' is a non-empty text. *)
Definition filled (f : field) : bool :=
  match f with Blank => false | Num _ => true end.

(** Number(form.x): Number('') is 0. *)
Definition Number (f : field) : Z :=
  match f with Blank => 0 | Num z => z end.

Record form_t := {
  name : string;
  costPrice : field;
  sellingPrice : field;
  stockQty : field;
  minStockLevel : field
}.

(** The form openAdd sets: minStockLevel: '5', the rest empty. *)
Definition blankForm : form_t :=
  {| name := EmptyString; costPrice := Blank; sellingPrice := Blank;
     stockQty := Blank; minStockLevel := Num 5 |}.

Definition formOf (p : product_row) : form_t :=
  {| name := p_name p; costPrice := Num (p_cost_price p);
     sellingPrice := Num (p_selling_price p); stockQty := Num (p_stock_qty p);
     minStockLevel := Num (p_min_stock_level p) |}.

Record state := {
  showForm : bool;
  showPinDialog : bool;
  editing : option product_row;
  pinInput : string;
  pinError : string;
  pinUnlocked : bool;
  pendingEditProduct : option product_row;
  form : form_t
}.

Definition initial : state :=
  {| showForm := false; showPinDialog := false; editing := None;
     pinInput := EmptyString; pinError := EmptyString; pinUnlocked := false;
     pendingEditProduct := None; form := blankForm |}.

Definition openAdd (st : state) : state :=
  {| showForm := true; showPinDialog := showPinDialog st; editing := None;
     pinInput := pinInput st; pinError := pinError st;
     pinUnlocked := pinUnlocked st; pendingEditProduct := pendingEditProduct st;
     form := blankForm |}.

Definition openEdit (p : product_row) (st : state) : state :=
  {| showForm := true; showPinDialog := showPinDialog st; editing := Some p;
     pinInput := pinInput st; pinError := pinError st;
     pinUnlocked := pinUnlocked st; pendingEditProduct := pendingEditProduct st;
     form := formOf p |}.

Definition askPin (pending : option product_row) (st : state) : state :=
  {| showForm := showForm st; showPinDialog := true; editing := editing st;
     pinInput := EmptyString; pinError := EmptyString;
     pinUnlocked := pinUnlocked st; pendingEditProduct := pending;
     form := form st |}.

Definition openAddWithPin (st : state) : state :=
  if pinUnlocked st then openAdd st else askPin None st.

Definition openEditWithPin (p : product_row) (st : state) : state :=
  if pinUnlocked st then openEdit p st else askPin (Some p) st.

Definition set_pinError (e : string) (st : state) : state :=
  {| showForm := showForm st; showPinDialog := showPinDialog st;
     editing := editing st; pinInput := pinInput st; pinError := e;
     pinUnlocked := pinUnlocked st; pendingEditProduct := pendingEditProduct st;
     form := form st |}.

Definition set_pinInput (s : string) (st : state) : state :=
  {| showForm := showForm st; showPinDialog := showPinDialog st;
     editing := editing st; pinInput := s; pinError := pinError st;
     pinUnlocked := pinUnlocked st; pendingEditProduct := pendingEditProduct st;
     form := form st |}.

Definition set_form (f : form_t) (st : state) : state :=
  {| showForm := showForm st; showPinDialog := showPinDialog st;
     editing := editing st; pinInput := pinInput st; pinError := pinError st;
     pinUnlocked := pinUnlocked st; pendingEditProduct := pendingEditProduct st;
     form := f |}.

Definition set_showForm (b : bool) (st : state) : state :=
  {| showForm := b; showPinDialog := showPinDialog st;
     editing := editing st; pinInput := pinInput st; pinError := pinError st;
     pinUnlocked := pinUnlocked st; pendingEditProduct := pendingEditProduct st;
     form := form st |}.

(** onOpenChange(false) of the PIN dialog. *)
Definition closePinDialog (st : state) : state :=
  {| showForm := showForm st; showPinDialog := false;
     editing := editing st; pinInput := pinInput st; pinError := EmptyString;
     pinUnlocked := pinUnlocked st; pendingEditProduct := None;
     form := form st |}.

Definition unlocked (st : state) : state :=
  {| showForm := showForm st; showPinDialog := false;
     editing := editing st; pinInput := pinInput st; pinError := pinError st;
     pinUnlocked := true; pendingEditProduct := pendingEditProduct st;
     form := form st |}.

Definition clear_pending (st : state) : state :=
  {| showForm := showForm st; showPinDialog := showPinDialog st;
     editing := editing st; pinInput := pinInput st; pinError := pinError st;
     pinUnlocked := pinUnlocked st; pendingEditProduct := None;
     form := form st |}.

(** [data] is the answer of the RPC verify_my_product_pin. *)
Definition handleVerifyPin (data : bool) (st : state) : state :=
  if negb data then set_pinError "Incorrect PIN" st
  else
    let st1 := unlocked st in
    match pendingEditProduct st1 with
    | Some p => clear_pending (openEdit p st1)
    | None => openAdd st1
    end.

Inductive save_outcome :=
| FillRequired               (* toast 'Fill all required fields' *)
| SaveError (e : pg_error)
| Updated                    (* toast 'Product updated' *)
| Added.                     (* toast 'Product added' *)

Definition payloadOf (f : form_t) : product_payload :=
  {| pp_name := name f;
     pp_cost_price := Number (costPrice f);
     pp_selling_price := Number (sellingPrice f);
     pp_stock_qty := Number (stockQty f);
     pp_min_stock_level := Number (minStockLevel f);
     pp_owner_user_id := None |}.

Definition handleSave (uid : uuid) (st : state) (d : db)
  : save_outcome * state * db :=
  let f := form st in
  if negb (Str.truthy (name f)) || negb (filled (costPrice f))
     || negb (filled (sellingPrice f)) || negb (filled (stockQty f))
  then (FillRequired, st, d)
  else
    match editing st with
    | Some e =>
        match update_product uid (p_id e) (payloadOf f) d with
        | Err err => (SaveError err, st, d)
        | Ok d' => (Updated, set_showForm false st, d')
        end
    | None =>
        match insert_product uid (payloadOf f) d with
        | Err err => (SaveError err, st, d)
        | Ok d' => (Added, set_showForm false st, d')
        end
    end.

(** The rows delete().eq('id', id) reaches under "Users delete own
    products": USING (owner_user_id = auth.uid()). *)
Definition delete_product_hits (uid : uuid) (id : uuid) (p : product_row) : bool :=
  Nat.eqb (p_id p) id && Nat.eqb (p_owner_user_id p) uid.

(** sale_items.product_id REFERENCES products(id) has no ON DELETE action:
    deleting a product a sale line refers to fails the statement. *)
Definition delete_product (uid : uuid) (id : uuid) (d : db) : result db :=
  if existsb (fun p => delete_product_hits uid id p
                       && existsb (fun r => Nat.eqb (si_product_id r) (p_id p))
                                  (sale_items d))
             (products d)
  then Err ForeignKeyViolation
  else Ok (set_products (filter (fun p => negb (delete_product_hits uid id p))
                                (products d)) d).

Definition handleDelete (uid : uuid) (id : uuid) (d : db) : db :=
  match delete_product uid id d with
  | Ok d' => d'
  | Err _ => d
  end.

(** What the user can do on the page. *)
Inductive action :=
| ClickAdd
| ClickEdit (p : product_row)
| TypePin (s : string)
| ClickUnlock
| ClosePinDialog
| TypeForm (f : form_t)
| ClickSave
| CloseForm
| ClickDelete (id : uuid).

(** A control exists only while its dialog is open; the delete button is
    rendered for an admin only. *)
Definition enabled (isAdmin : bool) (a : action) (st : state) : bool :=
  match a with
  | ClickAdd | ClickEdit _ => true
  | TypePin _ | ClickUnlock | ClosePinDialog => showPinDialog st
  | TypeForm _ | ClickSave | CloseForm => showForm st
  | ClickDelete _ => isAdmin
  end.

Section WithPgcrypto.

Variable crypt : string -> string -> string.

Definition step (uid : uuid) (isAdmin : bool) (a : action) (sd : state * db)
  : state * db :=
  let '(st, d) := sd in
  if negb (enabled isAdmin a st) then (st, d)
  else
    match a with
    | ClickAdd => (openAddWithPin st, d)
    | ClickEdit p => (openEditWithPin p st, d)
    | TypePin s => (set_pinInput s st, d)
    | ClickUnlock =>
        (handleVerifyPin (Pin.verify_my_product_pin crypt (Some uid) (pinInput st) d) st,
         d)
    | ClosePinDialog => (closePinDialog st, d)
    | TypeForm f => (set_form f st, d)
    | ClickSave => let '(_, st', d') := handleSave uid st d in (st', d')
    | CloseForm => (set_showForm false st, d)
    | ClickDelete id => (st, handleDelete uid id d)
    end.

Definition run (uid : uuid) (isAdmin : bool) (actions : list action)
           (sd : state * db) : state * db :=
  fold_left (fun sd a => step uid isAdmin a sd) actions sd.

End WithPgcrypto.

End ProductsPage.

(** ** Registrations one after the other *)
Module RoleRuns.
Import Db.

(** The principals of [callers] call ensure_my_role() in turn, each call
    finishing before the next starts. *)
Fixpoint bootstrap_all (callers : list uuid) (d : db) : db :=
  match callers with
  | [] => d
  | u :: rest =>
      match Roles.ensure_my_role (Some u) d with
      | Ok (_, d') => bootstrap_all rest d'
      | Err _ => bootstrap_all rest d
      end
  end.

(** The role assignments of one principal. *)
Definition roles_of (u : uuid) (d : db) : list user_role_row :=
  filter (fun r => Nat.eqb (ur_user_id r) u) (user_roles d).

Definition admins (d : db) : list user_role_row :=
  filter (fun r => app_role_eqb (ur_role r) admin) (user_roles d).

End RoleRuns.

(** ** Referential integrity of the sale lines *)
Module Integrity.
Import Db.

(** sale_items.product_id REFERENCES products(id): every sale line names a
    product that exists. *)
Definition lines_reference_products (d : db) : Prop :=
  forall r, In r (sale_items d) -> product_exists (si_product_id r) d = true.

End Integrity.

(** ** Sample data used in the examples below *)
Module Samples.
Import Db.
Local Open Scope string_scope.

Definition db_of_roles (rs : list user_role_row) : db :=
  {| products := []; customers := []; sales := []; sale_items := [];
     utang_ledger := []; user_roles := rs; profiles := []; next_uuid := 0%nat |}.

Definition alice : uuid := 100%nat.
Definition bob : uuid := 200%nat.

Definition coke : product_row :=
  {| p_id := 1%nat; p_name := "Coke"; p_cost_price := pesos 10;
     p_selling_price := pesos 14; p_stock_qty := 10; p_min_stock_level := 5;
     p_owner_user_id := alice |}.

Definition rice : product_row :=
  {| p_id := 2%nat; p_name := "Rice"; p_cost_price := pesos 50;
     p_selling_price := pesos 62; p_stock_qty := 5; p_min_stock_level := 5;
     p_owner_user_id := alice |}.

Definition db_of_products (ps : list product_row) : db :=
  {| products := ps; customers := []; sales := []; sale_items := [];
     utang_ledger := []; user_roles := []; profiles := []; next_uuid := 50%nat |}.

(** Alice's shop: two products, nothing sold yet. *)
Definition shop : db := db_of_products [coke; rice].

(** The cart of the specification's scenario: 2 at 14 and 1 at 62. *)
Definition scenario_cart : list POS.CartItem :=
  [ {| POS.product := coke; POS.quantity := 2 |};
    {| POS.product := rice; POS.quantity := 1 |} ].

Definition cash_state (c : list POS.CartItem) (received : money) : POS.state :=
  {| POS.cart := c; POS.customers := []; POS.paymentType := cash;
     POS.cashReceived := received; POS.utangCustomerName := EmptyString |}.

(** The shop after Rice was deleted while it still sits in a cart. *)
Definition shop_without_rice : db := db_of_products [coke].

(** The shop with one Coke left, while a cart loaded earlier still shows
    ten. *)
Definition shop_last_coke : db :=
  db_of_products [Spec.with_stock 1 coke; rice].

(** Bob, another principal, inserts a sale of his own. *)
Definition bobs_sale_payload : sale_payload :=
  {| sp_payment_type := cash; sp_total := 0; sp_cash_received := Some 0;
     sp_change_amount := Some 0; sp_customer_id := None; sp_cashier_id := bob |}.

Definition bobs_sale : sale_row :=
  {| s_id := 50%nat; s_payment_type := cash; s_total := 0;
     s_cash_received := Some 0; s_change_amount := Some 0;
     s_customer_id := None; s_cashier_id := bob |}.

Definition shop_and_bobs_sale : db := add_sale bobs_sale shop.

(** A sale line of Bob's sale that names Alice's Coke. *)
Definition line_on_alices_coke : sale_item_payload :=
  {| sip_sale_id := 50%nat; sip_product_id := 1%nat; sip_product_name := "Coke";
     sip_quantity := 3; sip_price := 0; sip_total := 0 |}.

(** Maria, a customer of Alice. *)
Definition maria : customer_row :=
  {| c_id := 7%nat; c_full_name := "Maria Santos"; c_contact_number := None;
     c_notes := None; c_owner_user_id := alice |}.

Definition with_customers (cs : list customer_row) (d : db) : db :=
  {| products := products d; customers := cs; sales := sales d;
     sale_items := sale_items d; utang_ledger := utang_ledger d;
     user_roles := user_roles d; profiles := profiles d;
     next_uuid := next_uuid d |}.

Definition shop_with_maria : db := with_customers [maria] shop.

Definition utang_state (c : list POS.CartItem) (name : string) (d : db) : POS.state :=
  {| POS.cart := c; POS.customers := POS.fetchCustomers alice d;
     POS.paymentType := utang; POS.cashReceived := 0;
     POS.utangCustomerName := name |}.

(** Maria owes 90: one credit entry of an earlier sale. *)
Definition marias_credit : utang_row :=
  {| u_id := 30%nat; u_customer_id := 7%nat; u_sale_id := None;
     u_amount := pesos 90; u_type := credit; u_note := None;
     u_created_by := Some alice; u_owner_user_id := alice |}.

Definition marias_tab : db := add_utang marias_credit shop_with_maria.

Definition maria_selected : Customers.Customer :=
  {| Customers.id := 7%nat; Customers.full_name := "Maria Santos";
     Customers.contact_number := None; Customers.notes := None;
     Customers.totalBalance := pesos 90 |}.

Definition paying (amount : money) : Customers.state :=
  {| Customers.customers := Customers.fetchCustomers alice marias_tab;
     Customers.selectedCustomer := Some maria_selected;
     Customers.paymentAmount := amount |}.

(** A stand-in for pgcrypto's crypt. *)
Definition toy_crypt (password salt : string) : string := salt ++ password.

Definition signup_without_pin : Pin.auth_user :=
  {| Pin.au_id := 3%nat; Pin.au_email := "ana@example.org";
     Pin.au_meta_display_name := Some "Ana";
     Pin.au_meta_product_pin := Some EmptyString |}.





(** The filled form of a new product. *)
Definition fish_form : ProductsPage.form_t :=
  {| ProductsPage.name := "Fish"; ProductsPage.costPrice := ProductsPage.Num (pesos 20);
     ProductsPage.sellingPrice := ProductsPage.Num (pesos 25);
     ProductsPage.stockQty := ProductsPage.Num 0;
     ProductsPage.minStockLevel := ProductsPage.Blank |}.

Definition three_cokes : list POS.CartItem :=
  [ {| POS.product := coke; POS.quantity := 3 |} ].

End Samples.

(** * Properties *)

(** ** Role bootstrap *)
Section RoleBootstrap.
Import Db Roles Samples.

Lemma app_role_eqb_eq (a b : app_role) : app_role_eqb a b = true <-> a = b.
Proof. destruct a, b; simpl; split; congruence. Qed.

Lemma existing_role_some (uid : uuid) (d : db) (r : app_role) :
  existing_role uid d = Some r ->
  In {| ur_user_id := uid; ur_role := r |} (user_roles d).
Proof.
  unfold existing_role.
  destruct (find _ (user_roles d)) as [row|] eqn:F; simpl; [|discriminate].
  intros [= <-].
  apply find_some in F as [Hin Heq].
  apply Nat.eqb_eq in Heq. subst uid. now destruct row.
Qed.

Lemma existing_role_none (uid : uuid) (d : db) :
  existing_role uid d = None <->
  (forall r0, In r0 (user_roles d) -> ur_user_id r0 <> uid).
Proof.
  unfold existing_role. split.
  - destruct (find _ (user_roles d)) eqn:F; simpl; [discriminate|].
    intros _ r0 Hin Heq.
    apply (find_none _ _ F) in Hin. apply Nat.eqb_neq in Hin. contradiction.
  - intros H. destruct (find _ (user_roles d)) as [row|] eqn:F; [|reflexivity].
    apply find_some in F as [Hin Heq]. apply Nat.eqb_eq in Heq.
    now apply H in Hin.
Qed.

Lemma has_admin_true (d : db) :
  has_admin d = true <-> exists r0, In r0 (user_roles d) /\ ur_role r0 = admin.
Proof.
  unfold has_admin. rewrite existsb_exists.
  split; intros [r0 [Hin H]]; exists r0; split; trivial; now apply app_role_eqb_eq.
Qed.

Lemma has_admin_false (d : db) :
  has_admin d = false <-> forall r0, In r0 (user_roles d) -> ur_role r0 <> admin.
Proof.
  split.
  - intros H r0 Hin Heq.
    assert (has_admin d = true) by (apply has_admin_true; eauto). congruence.
  - intros H. destruct (has_admin d) eqn:E; [|reflexivity].
    apply has_admin_true in E as [r0 [Hin Heq]]. now apply H in Hin.
Qed.

Lemma has_role_true (uid : uuid) (r : app_role) (d : db) :
  has_role uid r d = true <-> In {| ur_user_id := uid; ur_role := r |} (user_roles d).
Proof.
  unfold has_role. rewrite existsb_exists. split.
  - intros [[u r'] [Hin H]]. simpl in H. apply andb_true_iff in H as [H1 H2].
    apply Nat.eqb_eq in H1. apply app_role_eqb_eq in H2. now subst.
  - intros Hin. eexists; split; [exact Hin|]. simpl.
    rewrite Nat.eqb_refl. now destruct r.
Qed.

Lemma insert_user_role_fresh (uid : uuid) (r : app_role) (d : db) :
  (forall r0, In r0 (user_roles d) -> ur_user_id r0 <> uid) ->
  insert_user_role uid r d = add_user_role {| ur_user_id := uid; ur_role := r |} d.
Proof.
  intros H. unfold insert_user_role.
  destruct (has_role uid r d) eqn:E; [|reflexivity].
  apply has_role_true in E. apply H in E. now simpl in E.
Qed.

(** C7. ensureRole fails with Unauthorized for an unauthenticated
    principal; for a principal that already has a role assignment it
    returns a role that principal holds and leaves the database as it
    was; for a principal without one it appends one assignment for that
    principal and returns its role, which is 'admin' exactly when no
    assignment with role 'admin' exists system-wide and 'cashier' exactly
    when one does. *)
Theorem ensure_my_role_bootstrap (d : db) :
  ensure_my_role None d = Err NotAuthenticated
  /\ (forall uid,
        (exists r0, In r0 (user_roles d) /\ ur_user_id r0 = uid) ->
        exists r, ensure_my_role (Some uid) d = Ok (r, d)
                  /\ In {| ur_user_id := uid; ur_role := r |} (user_roles d))
  /\ (forall uid,
        (forall r0, In r0 (user_roles d) -> ur_user_id r0 <> uid) ->
        exists r,
          ensure_my_role (Some uid) d
          = Ok (r, add_user_role {| ur_user_id := uid; ur_role := r |} d)
          /\ (r = admin <-> forall r0, In r0 (user_roles d) -> ur_role r0 <> admin)
          /\ (r = cashier <-> exists r0, In r0 (user_roles d) /\ ur_role r0 = admin)).
Proof.
  split; [reflexivity|]. split.
  - intros uid [r0 [Hin Hu]]. unfold ensure_my_role.
    destruct (existing_role uid d) as [r|] eqn:E.
    + exists r. split; [reflexivity|]. now apply existing_role_some.
    + exfalso. rewrite existing_role_none in E. now apply (E r0).
  - intros uid Hnone. unfold ensure_my_role.
    pose proof Hnone as E. rewrite <- existing_role_none in E. rewrite E.
    exists (assigned_role (has_admin d)).
    rewrite (insert_user_role_fresh _ _ _ Hnone). split; [reflexivity|].
    rewrite <- has_admin_false, <- has_admin_true.
    destruct (has_admin d); simpl; repeat split; congruence.
Qed.

Lemma ensure_my_role_bootstrap_witness :
  (exists r, ensure_my_role (Some 7%nat)
               (db_of_roles [{| ur_user_id := 7%nat; ur_role := cashier |}])
             = Ok (r, db_of_roles [{| ur_user_id := 7%nat; ur_role := cashier |}])
             /\ In {| ur_user_id := 7%nat; ur_role := r |}
                   [{| ur_user_id := 7%nat; ur_role := cashier |}])
  /\ (exists r, ensure_my_role (Some 8%nat) (db_of_roles [])
                = Ok (r, add_user_role {| ur_user_id := 8%nat; ur_role := r |}
                                       (db_of_roles []))
                /\ r = admin).
Proof.
  split.
  - apply (proj1 (proj2 (ensure_my_role_bootstrap
                           (db_of_roles [{| ur_user_id := 7%nat; ur_role := cashier |}])))
                 7%nat).
    eexists; split; [left; reflexivity | reflexivity].
  - destruct (proj2 (proj2 (ensure_my_role_bootstrap (db_of_roles []))) 8%nat)
      as [r [H1 [H2 _]]].
    + intros r0 [].
    + exists r. split; [exact H1|]. apply H2. intros r0 [].
Defined.

End RoleBootstrap.

(** ** Role bootstrap under interleaving *)
Section RoleRace.
Import Db Roles Samples.

(** Run to completion without interruption, the statement-level execution
    is the function body: three statements decide every call. *)
Lemma run_alone_is_ensure_my_role (auth_uid : option uuid) (c2 : call) (d : db) :
  let '(c1', _, d') := run [First; First; First] (start auth_uid) c2 d in
  match ensure_my_role auth_uid d with
  | Ok (r, d1) => at_pc c1' = Returned r /\ d' = d1
  | Err e => at_pc c1' = Raised e /\ d' = d
  end.
Proof.
  destruct auth_uid as [uid|]; simpl; [|auto].
  unfold ensure_my_role, step; simpl.
  destruct (existing_role uid d); simpl; auto.
Qed.

(** Two first registrants one after the other: the first becomes admin,
    the second cashier. *)
Lemma sequential_bootstrap_one_admin (u1 u2 : uuid) (d : db) :
  user_roles d = [] -> u1 <> u2 ->
  exists d1 d2,
    ensure_my_role (Some u1) d = Ok (admin, d1)
    /\ ensure_my_role (Some u2) d1 = Ok (cashier, d2)
    /\ holds u2 admin d2 = false.
Proof.
  intros Hd Hne. destruct d as [ps cs ss sis ul urs prs n]. simpl in Hd. subst urs.
  assert (E : Nat.eqb u1 u2 = false) by now apply Nat.eqb_neq.
  unfold ensure_my_role, holds. cbn.
  eexists. eexists. split; [reflexivity|].
  unfold existing_role, has_admin, insert_user_role, has_role, add_user_role.
  simpl. rewrite E. simpl. split; [reflexivity|].
  simpl. rewrite E, Nat.eqb_refl. reflexivity.
Qed.

(** C8. Two first-time bootstrap calls by the distinct principals 1 and 2
    on a database without role assignments, scheduled so that both read
    "no admin exists" before either inserts: both calls return 'admin' and
    both principals hold 'admin' afterwards. *)
Theorem concurrent_bootstrap_two_admins :
  let '(c1, c2, d) :=
    run [First; First; Second; Second; First; Second]
        (start (Some 1%nat)) (start (Some 2%nat)) (db_of_roles []) in
  at_pc c1 = Returned admin
  /\ at_pc c2 = Returned admin
  /\ holds 1%nat admin d = true
  /\ holds 2%nat admin d = true.
Proof. vm_compute. repeat split. Qed.

(** The single-admin guarantee fails for some schedule. *)
Lemma at_most_one_admin_fails :
  ~ (forall (schedule : list turn) (u1 u2 : uuid),
        u1 <> u2 ->
        let '(_, _, d) := run schedule (start (Some u1)) (start (Some u2))
                              (db_of_roles []) in
        holds u1 admin d && holds u2 admin d = false).
Proof.
  intros H.
  specialize (H [First; First; Second; Second; First; Second] 1%nat 2%nat).
  vm_compute in H. specialize (H ltac:(discriminate)). discriminate.
Qed.

End RoleRace.

(** ** Product PIN *)
Section ProductPin.
Import Db Pin.

Variable crypt : string -> string -> string.
Variable gen_salt_bf : string.

Lemma verify_null_hash (uid : uuid) (d : db) :
  (forall p, In p (profiles d) -> pr_user_id p = uid -> pr_product_pin_hash p = None) ->
  forall _pin, verify_my_product_pin crypt (Some uid) _pin d = false.
Proof.
  intros H _pin. unfold verify_my_product_pin.
  destruct (existsb _ (profiles d)) eqn:E; [|reflexivity].
  apply existsb_exists in E as [p [Hin Hp]].
  apply andb_true_iff in Hp as [Hu Hh]. apply Nat.eqb_eq in Hu.
  rewrite (H p Hin Hu) in Hh. discriminate.
Qed.

End ProductPin.

(** C10. A signup with an empty (or missing) PIN stores a null hash, and for
    a principal all of whose profile rows carry a null hash
    verify_my_product_pin answers false for every submitted PIN; so after a
    signup with an empty PIN of a principal without an earlier profile, no
    PIN unlocks product access. *)
Theorem null_pin_hash_never_verifies
        (crypt : string -> string -> string) (gen_salt_bf : string) :
  (forall new d,
      Pin.coalesce (Pin.au_meta_product_pin new) EmptyString = EmptyString ->
      Db.profiles (Pin.handle_new_user crypt gen_salt_bf new d)
      = Db.profiles d
        ++ [{| Db.pr_user_id := Pin.au_id new;
               Db.pr_display_name :=
                 Pin.coalesce (Pin.au_meta_display_name new) (Pin.au_email new);
               Db.pr_product_pin_hash := None |}])
  /\ (forall uid d,
         (forall p, In p (Db.profiles d) -> Db.pr_user_id p = uid ->
                    Db.pr_product_pin_hash p = None) ->
         forall _pin, Pin.verify_my_product_pin crypt (Some uid) _pin d = false)
  /\ (forall new d,
         Pin.coalesce (Pin.au_meta_product_pin new) EmptyString = EmptyString ->
         (forall p, In p (Db.profiles d) -> Db.pr_user_id p <> Pin.au_id new) ->
         forall _pin,
           Pin.verify_my_product_pin crypt (Some (Pin.au_id new)) _pin
                                     (Pin.handle_new_user crypt gen_salt_bf new d)
           = false).
Proof.
  split; [|split].
  - intros new d H. unfold Pin.handle_new_user, Pin.pin_hash. rewrite H. reflexivity.
  - intros uid d H. now apply verify_null_hash.
  - intros new d H Hfresh. apply verify_null_hash.
    unfold Pin.handle_new_user, Pin.pin_hash. rewrite H. simpl.
    intros p Hin Hu. apply in_app_or in Hin as [Hin|[<-|[]]]; [|reflexivity].
    now apply Hfresh in Hin.
Qed.

(** ** The sale_items insert and its stock trigger *)
Section SaleItems.
Import Db Spec.

Lemma with_stock_same (p : product_row) : Spec.with_stock (p_stock_qty p - 0) p = p.
Proof. destruct p; unfold Spec.with_stock; simpl. f_equal. lia. Qed.

Lemma insert_sale_item_row_ok (uid : uuid) (new : sale_item_payload) (d d' : db) :
  insert_sale_item_row uid new d = Ok d' ->
  products d'
  = map (fun p => if Nat.eqb (p_id p) (sip_product_id new)
                  then Spec.with_stock (p_stock_qty p - sip_quantity new) p else p)
        (products d)
  /\ sale_items d' = sale_items d ++ item_rows (next_uuid d) [new]
  /\ sales d' = sales d /\ customers d' = customers d
  /\ utang_ledger d' = utang_ledger d /\ user_roles d' = user_roles d
  /\ profiles d' = profiles d /\ next_uuid d' = S (next_uuid d).
Proof.
  unfold insert_sale_item_row.
  destruct (negb (insert_sale_items_check uid new d)); [discriminate|].
  destruct (negb (sale_exists _ d && product_exists _ d)); [discriminate|].
  intros [= <-]. simpl. repeat split.
Qed.

Lemma insert_sale_items_ok (uid : uuid) (news : list sale_item_payload) :
  forall d d',
    insert_sale_items uid news d = Ok d' ->
    products d'
    = map (fun p => Spec.with_stock (p_stock_qty p - quantity_in news (p_id p)) p)
          (products d)
    /\ sale_items d' = sale_items d ++ item_rows (next_uuid d) news
    /\ sales d' = sales d /\ customers d' = customers d
    /\ utang_ledger d' = utang_ledger d /\ user_roles d' = user_roles d
    /\ profiles d' = profiles d.
Proof.
  induction news as [|new rest IH]; intros d d' H; simpl in H.
  - injection H as <-. rewrite app_nil_r. repeat split.
    rewrite <- (map_id (products d)) at 1. apply map_ext.
    intros p. unfold quantity_in. simpl. now rewrite with_stock_same.
  - destruct (insert_sale_item_row uid new d) as [d1|e] eqn:E; [|discriminate].
    apply insert_sale_item_row_ok in E as (Hp & Hi & Hs & Hc & Hu & Hr & Hpr & Hn).
    apply IH in H as (Hp' & Hi' & Hs' & Hc' & Hu' & Hr' & Hpr').
    repeat split; try congruence.
    + rewrite Hp', Hp, map_map. apply map_ext. intros p.
      unfold quantity_in. simpl.
      destruct (Nat.eqb (sip_product_id new) (p_id p)) eqn:E1.
      * apply Nat.eqb_eq in E1. rewrite E1, Nat.eqb_refl.
        destruct p; unfold Spec.with_stock; simpl. f_equal. lia.
      * rewrite Nat.eqb_sym, E1. reflexivity.
    + rewrite Hi', Hi, Hn. simpl. now rewrite <- app_assoc.
Qed.



(** A failing insert names a row that breaks the policy or a foreign key. *)
Lemma insert_sale_items_err (uid : uuid) (news : list sale_item_payload) (d : db)
      (e : pg_error) :
  insert_sale_items uid news d = Err e -> news <> [].
Proof. destruct news; simpl; [discriminate|]. intros _. discriminate. Qed.

End SaleItems.

(** ** Checkout *)
Section Checkout.
Import Db POS Spec.



Lemma quantity_in_items (sale : sale_row) (c : list CartItem) (pid : uuid) :
  quantity_in (items sale c) pid = quantity_sold c pid.
Proof.
  unfold quantity_in, quantity_sold, items.
  induction c as [|l c IH]; simpl; [reflexivity|].
  destruct (Nat.eqb (p_id (product l)) pid); simpl; now rewrite IH.
Qed.


(** What resolving the customer writes: nothing, or one customer row owned
    by the principal. *)
Lemma resolveCustomer_ok (uid : uuid) (st : state) (d : db) :
  exists customerId st1 d1,
    resolveCustomer uid st d = Ok (customerId, st1, d1)
    /\ products d1 = products d /\ sales d1 = sales d
    /\ sale_items d1 = sale_items d /\ utang_ledger d1 = utang_ledger d
    /\ user_roles d1 = user_roles d /\ profiles d1 = profiles d
    /\ cart st1 = cart st /\ paymentType st1 = paymentType st.
Proof.
  unfold resolveCustomer. destruct (paymentType st) eqn:P.
  - exists None, st, d. repeat split. assumption.
  - destruct (findCustomer _ (POS.customers st)) as [c|].
    + exists (Some (id c)), st, d. repeat split. assumption.
    + simpl. do 3 eexists. split; [reflexivity|]. repeat split. assumption.
Qed.

Lemma insert_sale_ok (uid : uuid) (new : sale_payload) (d : db) (sale : sale_row)
      (d' : db) :
  insert_sale uid new d = Ok (sale, d') ->
  d' = add_sale sale d
  /\ s_id sale = next_uuid d
  /\ s_payment_type sale = sp_payment_type new
  /\ s_total sale = sp_total new
  /\ s_cash_received sale = sp_cash_received new
  /\ s_change_amount sale = sp_change_amount new
  /\ s_customer_id sale = sp_customer_id new
  /\ s_cashier_id sale = uid.
Proof.
  unfold insert_sale.
  destruct (Nat.eqb (sp_cashier_id new) uid) eqn:E; simpl; [|discriminate].
  destruct (negb _); [discriminate|].
  intros [= <- <-]. simpl. apply Nat.eqb_eq in E. repeat split. exact E.
Qed.

Lemma postLedger_frame (uid : uuid) (st : state) (customerId : option uuid)
      (sale : sale_row) (d : db) :
  let d' := postLedger uid st customerId sale d in
  products d' = products d /\ sales d' = sales d
  /\ sale_items d' = sale_items d /\ Db.customers d' = Db.customers d.
Proof.
  unfold postLedger. destruct (paymentType st), customerId; simpl; auto.
  unfold insert_utang.
  destruct (negb (insert_utang_check _ _ _)); simpl; auto.
  destruct (negb _); simpl; auto.
Qed.

(** C1 (as the code has it). Checkout is a sequence of separately
    committed statements: new customer, sale header, sale lines with
    their stock decrements, ledger entry. A rejected validation writes
    nothing; a failed sale-header insert leaves sales, lines, stock and
    ledger as they were; a failed sale-line insert adds no line and
    changes no stock but leaves the sale header it follows committed; a
    completed checkout has added the header, one line per cart entry and
    the stock decrements. *)
Theorem checkout_commits_statement_by_statement (uid : uuid) (st : state) (d : db) :
  let '(o, _, d') := handleCheckout uid st d in
  match o with
  | NoOp | InsufficientCash | EnterCustomerName | ErrorCreatingCustomer _ => d' = d
  | ErrorCreatingSale _ =>
      sales d' = sales d /\ sale_items d' = sale_items d
      /\ products d' = products d /\ utang_ledger d' = utang_ledger d
  | ErrorSavingItems _ =>
      exists sale,
        sales d' = sales d ++ [sale] /\ sale_items d' = sale_items d
        /\ products d' = products d /\ utang_ledger d' = utang_ledger d
  | SaleCompleted sale =>
      sales d' = sales d ++ [sale]
      /\ (exists n, sale_items d' = sale_items d ++ item_rows n (items sale (cart st)))
      /\ products d'
         = map (fun p => with_stock (p_stock_qty p - quantity_sold (cart st) (p_id p)) p)
               (products d)
  end.
Proof.
  unfold handleCheckout. destruct (cart st) as [|l c] eqn:C; [reflexivity|].
  rewrite <- C. clear C l c.
  destruct (is_cash _ && _); [reflexivity|].
  destruct (is_utang _ && _); [reflexivity|].
  destruct (resolveCustomer_ok uid st d)
    as (cid & st1 & d1 & -> & Hp & Hs & Hi & Hu & _).
  destruct (insert_sale uid _ d1) as [[sale d2]|e] eqn:S.
  - apply insert_sale_ok in S as (-> & _).
    destruct (insert_sale_items uid _ _) as [d3|e] eqn:I.
    + apply insert_sale_items_ok in I as (Ip & Ii & Is & _).
      destruct (postLedger_frame uid st cid sale d3) as (Lp & Ls & Li & _).
      rewrite Lp, Ls, Li, Ip, Ii, Is. simpl. rewrite Hp, Hs, Hi.
      repeat split.
      * eexists. reflexivity.
      * apply map_ext. intros p. now rewrite quantity_in_items.
    + exists sale. simpl. now rewrite Hp, Hs, Hi, Hu.
  - now rewrite Hp, Hs, Hi, Hu.
Qed.

(** The path a checkout took, read off its outcome. *)
Lemma handleCheckout_trace (uid : uuid) (st : state) (d : db) :
  let '(o, st', d') := handleCheckout uid st d in
  match o with
  | NoOp => cart st = [] /\ d' = d
  | InsufficientCash =>
      paymentType st = cash /\ cashReceived st < subtotal (cart st) /\ d' = d
  | EnterCustomerName =>
      paymentType st = utang /\ Str.trim (utangCustomerName st) = EmptyString
      /\ d' = d
  | ErrorCreatingCustomer _ => False
  | ErrorCreatingSale e =>
      exists cid d1,
        resolveCustomer uid st d = Ok (cid, st', d1)
        /\ insert_sale uid (salePayload uid st cid) d1 = Err e /\ d' = d1
  | ErrorSavingItems e =>
      exists cid d1 sale,
        resolveCustomer uid st d = Ok (cid, st', d1)
        /\ insert_sale uid (salePayload uid st cid) d1 = Ok (sale, add_sale sale d1)
        /\ insert_sale_items uid (items sale (cart st)) (add_sale sale d1) = Err e
        /\ d' = add_sale sale d1
  | SaleCompleted sale =>
      exists cid d1 d3,
        cart st <> []
        /\ resolveCustomer uid st d = Ok (cid, st', d1)
        /\ insert_sale uid (salePayload uid st cid) d1 = Ok (sale, add_sale sale d1)
        /\ insert_sale_items uid (items sale (cart st)) (add_sale sale d1) = Ok d3
        /\ d' = postLedger uid st cid sale d3
  end.
Proof.
  unfold handleCheckout. destruct (cart st) as [|l c] eqn:C; [now split|].
  assert (NE : cart st <> []) by (rewrite C; discriminate).
  rewrite <- C. clear C l c.
  destruct (is_cash _ && _) eqn:V1.
  { apply andb_true_iff in V1 as [V1 V2]. apply Z.ltb_lt in V2.
    destruct (paymentType st); [now repeat split | discriminate]. }
  destruct (is_utang _ && _) eqn:V2.
  { apply andb_true_iff in V2 as [V2 V3].
    destruct (paymentType st); [discriminate|].
    destruct (Str.trim (utangCustomerName st)); [now repeat split | discriminate]. }
  destruct (resolveCustomer_ok uid st d) as (cid & st1 & d1 & R & _).
  rewrite R.
  destruct (insert_sale uid _ d1) as [[sale d2]|e] eqn:S.
  - pose proof (insert_sale_ok _ _ _ _ _ S) as (-> & _).
    destruct (insert_sale_items uid _ _) as [d3|e] eqn:I.
    + exists cid, d1, d3. repeat split; assumption.
    + exists cid, d1, sale. repeat split; assumption.
  - exists cid, d1. repeat split; assumption.
Qed.

Lemma customer_exists_add (cid : uuid) (r : customer_row) (d : db) :
  customer_exists cid (add_customer r d)
  = customer_exists cid d || Nat.eqb (c_id r) cid.
Proof.
  unfold customer_exists. simpl. rewrite existsb_app. simpl.
  now rewrite orb_false_r.
Qed.


End Checkout.

Section CheckoutClaims.
Import Db POS Spec Samples.

(** C1 (as stated) fails: with a cart that still holds a product deleted
    in the meantime, the sale_items insert fails on its foreign key after
    the sale header was inserted, and the header stays: the committed
    state contains a sale without any line. *)
Lemma checkout_leaves_sale_without_lines :
  let '(o, _, d') :=
    handleCheckout alice (cash_state scenario_cart (pesos 100)) shop_without_rice in
  o = ErrorSavingItems ForeignKeyViolation
  /\ sales shop_without_rice = []
  /\ exists sale,
      sales d' = [sale]
      /\ sale_items d' = []
      /\ products d' = products shop_without_rice.
Proof. vm_compute. repeat split. eexists. repeat split. Qed.

(** C2 (as stated) fails: three Cokes are sold from a cart loaded when
    ten were in stock while the committed stock is one; the checkout
    completes and the committed stock becomes -2. *)
Lemma oversell_is_not_rejected :
  let '(o, _, d') :=
    handleCheckout alice (cash_state three_cokes (pesos 100)) shop_last_coke in
  stock_of 1%nat shop_last_coke = Some 1
  /\ quantity_sold three_cokes 1%nat = 3
  /\ (exists sale, o = SaleCompleted sale)
  /\ stock_of 1%nat d' = Some (-2).
Proof. vm_compute. repeat split. eexists. reflexivity. Qed.

(** C2 (as the code has it). Checkout does not look at the committed
    stock: a checkout that completes leaves every product with its prior
    stock minus the quantity of it sold, whatever the sign of the result,
    and a checkout with any other outcome leaves every product as it
    was. *)
Theorem checkout_stock_change (uid : uuid) (st : state) (d : db) :
  let '(o, _, d') := handleCheckout uid st d in
  match o with
  | SaleCompleted _ =>
      products d'
      = map (fun p => with_stock (p_stock_qty p - quantity_sold (cart st) (p_id p)) p)
            (products d)
  | _ => products d' = products d
  end.
Proof.
  pose proof (handleCheckout_trace uid st d) as T.
  destruct (handleCheckout uid st d) as [[o st'] d'].
  destruct (resolveCustomer_ok uid st d) as (cid0 & st0 & d0 & R0 & Hp & _).
  destruct o.
  - now destruct T as [_ ->].
  - now destruct T as (_ & _ & ->).
  - now destruct T as (_ & _ & ->).
  - contradiction.
  - destruct T as (cid & d1 & R & _ & ->). congruence.
  - destruct T as (cid & d1 & sale & R & _ & _ & ->). simpl. congruence.
  - destruct T as (cid & d1 & d3 & _ & R & _ & I & ->).
    apply insert_sale_items_ok in I as (Ip & _).
    destruct (postLedger_frame uid st cid sale d3) as (-> & _).
    rewrite Ip. simpl. assert (E : products d1 = products d) by congruence.
    rewrite E. apply map_ext. intros p. now rewrite quantity_in_items.
Qed.






(** While the cart is built, a quantity is only raised within the stock of
    the copy of the product the cart holds; the committed stock is not
    read. *)
Lemma updateQty_within_copy (productId : uuid) (delta : Z) (prev : list CartItem) :
  Forall (fun c => 0 < quantity c <= p_stock_qty (product c)) prev ->
  Forall (fun c => 0 < quantity c <= p_stock_qty (product c))
         (updateQty productId delta prev).
Proof.
  unfold updateQty. induction 1 as [|c prev Hc _ IH]; simpl; constructor; [|exact IH].
  destruct (negb (Nat.eqb (p_id (product c)) productId)); [exact Hc|].
  destruct ((quantity c + delta <=? 0)
            || (quantity c + delta >? p_stock_qty (product c))) eqn:E; [exact Hc|].
  apply orb_false_iff in E as [E1 E2]. apply Z.leb_gt in E1.
  rewrite Z.gtb_ltb in E2. apply Z.ltb_ge in E2. simpl. lia.
Qed.

End CheckoutClaims.

(** ** Credit checkout *)
Section CreditCheckout.
Import Db POS Spec Samples.







End CreditCheckout.

(** ** Payments on the credit ledger *)
Section Payments.
Import Db Customers Spec.

Lemma sum_of_cons (t : ledger_type) (k : uuid) (u : utang_row) (l : list utang_row) :
  sum_of t k (u :: l)
  = (if Nat.eqb (u_customer_id u) k
        && match u_type u, t with
           | credit, credit | payment, payment => true
           | _, _ => false
           end
     then u_amount u else 0)
    + sum_of t k l.
Proof.
  unfold sum_of. simpl.
  destruct (Nat.eqb (u_customer_id u) k && _); reflexivity.
Qed.

Lemma sum_of_app (t : ledger_type) (k : uuid) (l1 l2 : list utang_row) :
  sum_of t k (l1 ++ l2) = sum_of t k l1 + sum_of t k l2.
Proof.
  induction l1 as [|u l1 IH]; simpl.
  - reflexivity.
  - rewrite !sum_of_cons, IH. apply Z.add_assoc.
Qed.

Lemma balance_accumulate (b : balances_t) (u : utang_row) (k : uuid) :
  balance_or_zero (accumulate b u) k
  = balance_or_zero b k
    + (if Nat.eqb (u_customer_id u) k then signed_amount u else 0).
Proof.
  unfold accumulate, balance_or_zero, set_balance.
  rewrite (Nat.eqb_sym k).
  destruct (Nat.eqb (u_customer_id u) k) eqn:E.
  - apply Nat.eqb_eq in E. subst k.
    destruct (b (u_customer_id u)) as [v|]; [|reflexivity].
    destruct (Z.eqb_spec v 0); subst; reflexivity.
  - destruct (b k); lia.
Qed.

(** The object built by the forEach holds, for each customer, Σcredit −
    Σpayment of the rows read. *)
Lemma balances_from (l : list utang_row) (b : balances_t) (k : uuid) :
  balance_or_zero (fold_left accumulate l b) k
  = balance_or_zero b k + (sum_of credit k l - sum_of payment k l).
Proof.
  revert b. induction l as [|u l IH]; intros b; simpl.
  - unfold sum_of. simpl. lia.
  - rewrite IH, balance_accumulate, !sum_of_cons. unfold signed_amount.
    destruct (Nat.eqb (u_customer_id u) k), (u_type u); simpl; lia.
Qed.

(** The balance the page shows is the balance of the specification. *)
Lemma fetchCustomers_balance (uid : uuid) (d : db) (c : Customer) :
  In c (fetchCustomers uid d) ->
  totalBalance c = currentBalance uid (id c) d
  /\ exists row, In row (Db.customers d) /\ c_id row = id c
                 /\ c_owner_user_id row = uid.
Proof.
  unfold fetchCustomers. intros H. apply in_map_iff in H as [row [<- Hin]].
  simpl. split.
  - unfold balances. rewrite balances_from. reflexivity.
  - unfold select_customers in Hin. apply filter_In in Hin as [Hin Ho].
    apply Nat.eqb_eq in Ho. eauto.
Qed.

Lemma insert_payment_succeeds (uid : uuid) (new : utang_payload) (d : db) :
  up_owner_user_id new = None ->
  up_created_by new = Some uid ->
  up_sale_id new = None ->
  (exists c, In c (Db.customers d) /\ c_id c = up_customer_id new
             /\ c_owner_user_id c = uid) ->
  insert_utang uid new d
  = Ok (add_utang {| u_id := next_uuid d; u_customer_id := up_customer_id new;
                     u_sale_id := up_sale_id new; u_amount := up_amount new;
                     u_type := up_type new; u_note := up_note new;
                     u_created_by := up_created_by new;
                     u_owner_user_id := uid |} d).
Proof.
  intros Ho Hc Hs (c & Cin & Cid & Cow).
  unfold insert_utang, insert_utang_check, customer_exists.
  rewrite Ho, Hc, Hs. simpl. rewrite Nat.eqb_refl. simpl.
  assert (E1 : existsb (fun c0 => Nat.eqb (c_id c0) (up_customer_id new)
                                  && Nat.eqb (c_owner_user_id c0) uid)
                       (Db.customers d) = true).
  { apply existsb_exists. exists c. split; [assumption|].
    now rewrite Cid, Cow, !Nat.eqb_refl. }
  assert (E3 : existsb (fun c0 => Nat.eqb (c_id c0) (up_customer_id new))
                       (Db.customers d) = true).
  { apply existsb_exists. exists c. split; [assumption|].
    now rewrite Cid, Nat.eqb_refl. }
  now rewrite E1, E3.
Qed.

Lemma select_utang_add (uid : uuid) (entry : utang_row) (d : db) :
  u_owner_user_id entry = uid ->
  select_utang uid (add_utang entry d) = select_utang uid d ++ [entry].
Proof.
  intros H. unfold select_utang. simpl. rewrite filter_app. simpl.
  now rewrite H, Nat.eqb_refl.
Qed.



End Payments.

(** ** Ownership isolation *)
Section Ownership.
Import Db Api Samples.

Lemma filter_app_own {A : Type} (f : A -> bool) (l : list A) (a : A) :
  f a = false -> filter f (l ++ [a]) = filter f l.
Proof. intros H. rewrite filter_app. simpl. rewrite H. apply app_nil_r. Qed.

Lemma filter_map_own {A : Type} (f : A -> bool) (g : A -> A) (l : list A) :
  (forall a, In a l -> g a = a \/ (f a = false /\ f (g a) = false)) ->
  filter f (map g l) = filter f l.
Proof.
  induction l as [|a l IH]; intros H; simpl; [reflexivity|].
  rewrite IH by (intros b Hb; apply H; now right).
  destruct (H a (or_introl eq_refl)) as [E|[E1 E2]].
  - now rewrite E.
  - now rewrite E1, E2.
Qed.

Lemma insert_utang_ok (uid : uuid) (new : utang_payload) (d d' : db) :
  insert_utang uid new d = Ok d' ->
  exists row, d' = add_utang row d /\ u_owner_user_id row = uid.
Proof.
  unfold insert_utang. destruct (insert_utang_check uid new d) eqn:C; [|discriminate].
  simpl. destruct (negb _); [discriminate|].
  intros [= <-]. eexists. split; [reflexivity|]. simpl.
  unfold insert_utang_check in C.
  apply andb_true_iff in C as [C _]. apply andb_true_iff in C as [C _].
  apply andb_true_iff in C as [C _]. now apply Nat.eqb_eq.
Qed.

(** What a passing product update does to a row. *)
Lemma update_product_ok (uid id : uuid) (new : product_payload) (d d' : db) :
  update_product uid id new d = Ok d' ->
  exists g,
    d' = set_products (map g (products d)) d
    /\ forall p, In p (products d) ->
                 g p = p
                 \/ (p_owner_user_id p = uid /\ p_owner_user_id (g p) = uid
                     /\ p_id (g p) = p_id p).
Proof.
  unfold update_product.
  destruct (existsb (update_product_hits uid id) (products d)
            && negb (Nat.eqb (owner_or_default uid (pp_owner_user_id new)) uid)) eqn:C;
    [discriminate|].
  intros [= <-]. eexists. split; [reflexivity|].
  intros p Hin. cbv beta.
  destruct (update_product_hits uid id p) eqn:H; [right | now left].
  assert (E : existsb (update_product_hits uid id) (products d) = true)
    by (apply existsb_exists; eauto).
  rewrite E in C. simpl in C. apply negb_false_iff, Nat.eqb_eq in C.
  unfold update_product_hits in H. apply andb_true_iff in H as [_ H].
  apply Nat.eqb_eq in H. simpl. auto.
Qed.

(** Every request decided by the owner policies is isolated: the policies
    filter what is read and what is updated by owner, and refuse a row
    whose owner is not the principal. *)
Lemma requests_under_policies_are_isolated (uid : uuid) (r : request) (d : db) :
  under_owner_policies uid r -> isolated uid r d.
Proof.
  intros Guard. unfold isolated.
  destruct r as [|new|pid new| |name contact notes owner| |new| |new|news]; simpl.
  - repeat split. intros p Hp. apply filter_In in Hp as [_ Hp].
    now apply Nat.eqb_eq.
  - unfold insert_product.
    destruct (Nat.eqb (owner_or_default uid (pp_owner_user_id new)) uid) eqn:E;
      simpl; [|now repeat split].
    repeat split. unfold foreign_products. simpl. apply filter_app_own.
    simpl. now rewrite E.
  - destruct (update_product uid pid new d) as [d'|e] eqn:E; [|now repeat split].
    apply update_product_ok in E as (g & -> & Hg). repeat split.
    unfold foreign_products. simpl. apply filter_map_own.
    intros p Hin. destruct (Hg p Hin) as [E|(E1 & E2 & _)]; [now left | right].
    now rewrite E1, E2, Nat.eqb_refl.
  - repeat split. intros c Hc. apply filter_In in Hc as [_ Hc].
    now apply Nat.eqb_eq.
  - unfold insert_customer, insert_customers_check. simpl.
    repeat split. unfold foreign_customers. simpl. apply filter_app_own.
    simpl. destruct owner as [o|]; simpl in *; subst; now rewrite Nat.eqb_refl.
  - repeat split. intros u Hu. apply filter_In in Hu as [_ Hu].
    now apply Nat.eqb_eq.
  - destruct (insert_utang uid new d) as [d'|e] eqn:E; [|now repeat split].
    apply insert_utang_ok in E as (row & -> & Ho). repeat split.
    unfold foreign_utang. simpl. apply filter_app_own. now rewrite Ho, Nat.eqb_refl.
  - now repeat split.
  - destruct (insert_sale uid new d) as [[row d']|e] eqn:E; [|now repeat split].
    apply insert_sale_ok in E as (-> & _). now repeat split.
  - contradiction.
Qed.

(** No request reassigns the owner of a product: the owners of the products
    present before a request are the owners of the same products after it,
    and a product added by it belongs to the principal. *)
Lemma product_owner_never_reassigned (uid : uuid) (r : request) (d : db) :
  exists added,
    map p_owner_user_id (products (snd (exec uid r d)))
    = map p_owner_user_id (products d) ++ added
    /\ Forall (eq uid) added.
Proof.
  destruct r as [|new|pid new| |name contact notes owner| |new| |new|news]; simpl;
    try (exists []; rewrite app_nil_r; split; [reflexivity | constructor]).
  - unfold insert_product.
    destruct (Nat.eqb (owner_or_default uid (pp_owner_user_id new)) uid) eqn:E; simpl.
    + apply Nat.eqb_eq in E. exists [uid]. rewrite map_app. simpl. rewrite E.
      split; [reflexivity | repeat constructor].
    + exists []. rewrite app_nil_r. split; [reflexivity | constructor].
  - exists []. rewrite app_nil_r. split; [|constructor].
    destruct (update_product uid pid new d) as [d'|e] eqn:E; [|reflexivity].
    apply update_product_ok in E as (g & -> & Hg). simpl.
    rewrite map_map. apply map_ext_in. intros p Hin.
    destruct (Hg p Hin) as [E|(E1 & E2 & _)]; congruence.
  - exists []. rewrite app_nil_r. split; [|constructor].
    destruct (insert_utang uid new d) as [d'|e] eqn:E; [|reflexivity].
    now apply insert_utang_ok in E as (row & -> & _).
  - exists []. rewrite app_nil_r. split; [|constructor].
    destruct (insert_sale uid new d) as [[row d']|e] eqn:E; [|reflexivity].
    now apply insert_sale_ok in E as (-> & _).
  - exists []. rewrite app_nil_r. split; [|constructor].
    destruct (insert_sale_items uid news d) as [d'|e] eqn:E; [|reflexivity].
    apply insert_sale_items_ok in E as (Hp & _). simpl.
    rewrite Hp, map_map. reflexivity.
Qed.

(** The customers table takes a row that names another owner: Bob plants a
    customer in Alice's list. *)
Lemma customer_insert_accepts_foreign_owner :
  let '(resp, d') :=
    exec bob (InsertCustomer "Planted"%string None None (Some alice)) shop in
  resp = Done
  /\ select_customers alice shop = []
  /\ exists c, select_customers alice d' = [c]
               /\ c_full_name c = "Planted"%string
               /\ c_owner_user_id c = alice.
Proof. vm_compute. repeat split. eexists. repeat split. Qed.

(** C3. Bob, who owns no product and cannot read Alice's Coke, inserts a
    sale of his own and then a line of that sale that names Alice's Coke:
    both inserts pass their policies, the stock trigger runs with the
    rights of its definer, and the stock of Alice's Coke drops from 10 to
    7. The request is not isolated. *)
Theorem stock_trigger_crosses_owners :
  select_products bob shop = []
  /\ Spec.stock_of 1%nat shop = Some 10
  /\ exec bob (InsertSale bobs_sale_payload) shop
     = (SaleRows [bobs_sale], shop_and_bobs_sale)
  /\ (let '(resp, d') :=
        exec bob (InsertSaleItems [line_on_alices_coke]) shop_and_bobs_sale in
      resp = Done
      /\ Spec.stock_of 1%nat d' = Some 7
      /\ foreign_products bob d' <> foreign_products bob shop_and_bobs_sale)
  /\ ~ isolated bob (InsertSaleItems [line_on_alices_coke]) shop_and_bobs_sale.
Proof.
  repeat split.
  - vm_compute. discriminate.
  - vm_compute. intros (_ & H & _). discriminate.
Qed.

End Ownership.

(** ** The scenarios of the specification *)
Section Scenarios.
Import Db Spec Samples.
Local Open Scope string_scope.

Example trim_lower_maria :
  Str.toLowerCase (Str.trim "  Maria SANTOS ") = "maria santos".
Proof. reflexivity. Qed.

Example trim_blank : Str.trim "   " = EmptyString.
Proof. reflexivity. Qed.


(** Maria Santos is not yet a customer: the utang sale of the scenario cart
    creates her, posts one credit entry of 90 linked to the sale, and her
    balance is 90. *)
Example credit_checkout_new_customer :
  let '(o, _, d') :=
    POS.handleCheckout alice (utang_state scenario_cart "Maria Santos" shop) shop in
  exists sale new_customer entry,
    o = POS.SaleCompleted sale
    /\ Db.customers d' = [new_customer]
    /\ c_full_name new_customer = "Maria Santos"
    /\ c_owner_user_id new_customer = alice
    /\ utang_ledger d' = [entry]
    /\ u_amount entry = pesos 90
    /\ u_sale_id entry = Some (s_id sale)
    /\ currentBalance alice (c_id new_customer) d' = pesos 90.
Proof. vm_compute. do 3 eexists. repeat split. Qed.


(** After the scenario sale Alice renames Coke and raises its price: the
    product row changes, the lines of the sale do not. *)
Example price_edit_keeps_history :
  let '(_, _, d') :=
    POS.handleCheckout alice (cash_state scenario_cart (pesos 100)) shop in
  let d'' :=
    apply_edits
      [(alice, 1%nat,
        {| pp_name := "Coke 1.5L"; pp_cost_price := pesos 15;
           pp_selling_price := pesos 20; pp_stock_qty := 8;
           pp_min_stock_level := 5; pp_owner_user_id := None |})] d' in
  map p_selling_price (products d'') = [pesos 20; pesos 62]
  /\ map p_name (products d'') = ["Coke 1.5L"; "Rice"]
  /\ map si_product_name (sale_items d'') = ["Coke"; "Rice"]
  /\ map si_price (sale_items d'') = [pesos 14; pesos 62]
  /\ map si_total (sale_items d'') = [pesos 28; pesos 62].
Proof. vm_compute. repeat split. Qed.

(** recordPayment(Maria, 150) when her balance is 90 is refused and the
    ledger stays as it was. *)
Example payment_above_balance :
  let '(o, _, d') := Customers.handlePayment alice (paying (pesos 150)) marias_tab in
  o = Customers.InvalidPaymentAmount /\ d' = marias_tab.
Proof. vm_compute. split; reflexivity. Qed.

Lemma null_pin_hash_never_verifies_witness :
  Pin.verify_my_product_pin toy_crypt (Some 3%nat) "1234"
                            (Pin.handle_new_user toy_crypt "salt" signup_without_pin
                                                 Db.empty)
  = false.
Proof.
  apply (proj2 (proj2 (null_pin_hash_never_verifies toy_crypt "salt"))
               signup_without_pin Db.empty eq_refl).
  intros p [].
Defined.

End Scenarios.


(** * Further properties of the pages and the database layer *)

(** ** Building the cart *)
Section CartBuilding.
Import Db POS Cart Spec Samples.

Lemma itemCount_from (c : list CartItem) (acc : Z) :
  fold_left (fun s l => s + quantity l) c acc
  = acc + fold_right Z.add 0 (map quantity c).
Proof.
  revert acc. induction c as [|l c IH]; intros acc; simpl; [lia|].
  rewrite IH. lia.
Qed.

Lemma itemCount_sum (c : list CartItem) :
  itemCount c = fold_right Z.add 0 (map quantity c).
Proof. unfold itemCount. now rewrite itemCount_from. Qed.

Lemma find_line_none (pid : uuid) (c : list CartItem) :
  find (fun l => Nat.eqb (p_id (product l)) pid) c = None <-> ~ In pid (ids c).
Proof.
  unfold ids. induction c as [|l c IH]; simpl; [tauto|].
  destruct (Nat.eqb_spec (p_id (product l)) pid) as [E|E].
  - split; [discriminate | intros H; exfalso; apply H; now left].
  - rewrite IH. tauto.
Qed.

Lemma ids_raise (pid : uuid) (c : list CartItem) :
  ids (map (fun l => if Nat.eqb (p_id (product l)) pid
                     then set_quantity (quantity l + 1) l else l) c)
  = ids c.
Proof.
  unfold ids. rewrite map_map. apply map_ext. intros l.
  now destruct (Nat.eqb (p_id (product l)) pid).
Qed.

(** X1. addToCart keeps the cart free of duplicate products: when no two
    lines of the cart are for the same product, the same holds after
    adding any product. *)
Theorem addToCart_keeps_products_distinct (p : product_row) (prev : list CartItem) :
  NoDup (ids prev) -> NoDup (ids (addToCart p prev)).
Proof.
  intros ND. unfold addToCart.
  destruct (find _ prev) as [existing|] eqn:F.
  - destruct (quantity existing >=? p_stock_qty p); [exact ND|].
    now rewrite ids_raise.
  - apply find_line_none in F. unfold ids in *. rewrite map_app. simpl.
    apply NoDup_app; [exact ND | repeat constructor; intros [] | ].
    intros a Ha [<-|[]]. contradiction.
Qed.

Lemma addToCart_keeps_products_distinct_witness :
  NoDup (ids (addToCart coke scenario_cart)).
Proof.
  apply addToCart_keeps_products_distinct.
  repeat constructor; simpl; intuition discriminate.
Defined.

Lemma raise_one (pid : uuid) (c : list CartItem) :
  NoDup (ids c) -> In pid (ids c) ->
  fold_right Z.add 0
             (map quantity
                  (map (fun l => if Nat.eqb (p_id (product l)) pid
                                 then set_quantity (quantity l + 1) l else l) c))
  = fold_right Z.add 0 (map quantity c) + 1.
Proof.
  unfold ids. induction c as [|l c IH]; simpl; [intros _ []|].
  intros ND Hin. inversion ND as [|? ? Hnot ND']; subst.
  destruct (Nat.eqb_spec (p_id (product l)) pid) as [E|E].
  - simpl. subst pid.
    assert (K : map (fun l0 => if Nat.eqb (p_id (product l0)) (p_id (product l))
                               then set_quantity (quantity l0 + 1) l0 else l0) c = c).
    { rewrite <- (map_id c) at 2. apply map_ext_in. intros l0 H0.
      destruct (Nat.eqb_spec (p_id (product l0)) (p_id (product l))) as [E0|]; [|reflexivity].
      exfalso. apply Hnot. rewrite <- E0. now apply (in_map (fun l => p_id (product l))). }
    rewrite K. lia.
  - destruct Hin as [Hin|Hin]; [contradiction|].
    rewrite (IH ND' Hin). lia.
Qed.

(** X2. In a cart without duplicate products, addToCart raises the item
    count by exactly one, unless the cart already holds as many of the
    product as the stock of the product clicked, in which case the cart
    stays as it is. *)
Theorem addToCart_item_count (p : product_row) (prev : list CartItem) :
  NoDup (ids prev) ->
  ((exists l, In l prev /\ p_id (product l) = p_id p
              /\ p_stock_qty p <= quantity l) ->
   addToCart p prev = prev)
  /\ ((forall l, In l prev -> p_id (product l) = p_id p ->
                 quantity l < p_stock_qty p) ->
      itemCount (addToCart p prev) = itemCount prev + 1).
Proof.
  intros ND. unfold addToCart.
  destruct (find _ prev) as [existing|] eqn:F.
  - apply find_some in F as [Hin He]. apply Nat.eqb_eq in He.
    split.
    + intros (l & Hl & Hid & Hq).
      assert (l = existing) as ->.
      { clear Hq. unfold ids in ND. revert ND Hl Hin Hid He.
        induction prev as [|a prev IH]; simpl; [intros _ []|].
        intros ND [<-|Hl] [<-|Hin] Hid He; inversion ND as [|? ? Hnot ND']; subst.
        - reflexivity.
        - exfalso. apply Hnot. rewrite Hid, <- He. now apply (in_map (fun l => p_id (product l))).
        - exfalso. apply Hnot. rewrite He, <- Hid. now apply (in_map (fun l => p_id (product l))).
        - now apply IH. }
      destruct (Z.geb_spec (quantity existing) (p_stock_qty p)); [reflexivity | lia].
    + intros Hlt. specialize (Hlt existing Hin He).
      destruct (Z.geb_spec (quantity existing) (p_stock_qty p)); [lia|].
      rewrite !itemCount_sum. apply raise_one; [exact ND|].
      unfold ids. rewrite <- He. now apply (in_map (fun l => p_id (product l))).
  - split.
    + intros (l & Hl & Hid & _). apply (find_none _ _ F) in Hl.
      apply Nat.eqb_neq in Hl. contradiction.
    + intros _. rewrite !itemCount_sum, map_app, fold_right_app. simpl.
      clear. induction (map quantity prev) as [|q qs IH]; simpl; lia.
Qed.

Lemma addToCart_item_count_witness :
  itemCount (addToCart coke scenario_cart) = itemCount scenario_cart + 1.
Proof.
  apply (proj2 (addToCart_item_count coke scenario_cart
                  ltac:(repeat constructor; simpl; intuition discriminate))).
  intros l [<-|[<-|[]]]; simpl; intros E; [reflexivity | discriminate].
Defined.

(** X3. updateQty keeps every quantity between 1 and the stock of the copy
    of the product held by the cart line, when that was so before. *)
Theorem updateQty_stays_within_stock (productId : uuid) (delta : Z)
        (prev : list CartItem) :
  Forall (fun c => 0 < quantity c <= p_stock_qty (product c)) prev ->
  Forall (fun c => 0 < quantity c <= p_stock_qty (product c))
         (updateQty productId delta prev).
Proof. apply updateQty_within_copy. Qed.

Lemma updateQty_stays_within_stock_witness :
  Forall (fun c => 0 < quantity c <= p_stock_qty (product c))
         (updateQty 1%nat 20 scenario_cart).
Proof.
  apply updateQty_stays_within_stock.
  repeat constructor; simpl; lia.
Defined.

(** X4. updateQty never adds, drops, reorders or swaps a line: whatever the
    delta, the cart holds the same product copies in the same order (a
    delta that would bring a quantity to zero or below leaves the line in
    place). *)
Theorem updateQty_keeps_lines (productId : uuid) (delta : Z) (prev : list CartItem) :
  map product (updateQty productId delta prev) = map product prev.
Proof.
  unfold updateQty. rewrite map_map. apply map_ext. intros c.
  destruct (negb _); [reflexivity|].
  now destruct ((quantity c + delta <=? 0) || _).
Qed.

(** X5. Removing a product just added to a cart that had no line for it
    gives back the cart. *)
Theorem removeFromCart_undoes_addToCart (p : product_row) (prev : list CartItem) :
  ~ In (p_id p) (ids prev) ->
  removeFromCart (p_id p) (addToCart p prev) = prev.
Proof.
  intros Hnot. unfold addToCart.
  pose proof Hnot as F. apply find_line_none in F. rewrite F.
  unfold removeFromCart. rewrite filter_app. simpl. rewrite Nat.eqb_refl. simpl.
  rewrite app_nil_r. clear F.
  induction prev as [|l prev IH]; simpl; [reflexivity|].
  simpl in Hnot.
  destruct (Nat.eqb_spec (p_id (product l)) (p_id p)) as [E|E]; simpl.
  - exfalso. apply Hnot. now left.
  - rewrite IH; [reflexivity|]. intros H. apply Hnot. now right.
Qed.

Lemma removeFromCart_undoes_addToCart_witness :
  removeFromCart (p_id rice) (addToCart rice three_cokes) = three_cokes.
Proof.
  apply removeFromCart_undoes_addToCart. simpl. intuition discriminate.
Defined.


End CartBuilding.

(** ** What a checkout writes and what it leaves alone *)
Section CheckoutEffects.
Import Db POS Spec Samples.

Lemma trimStart_all_space (s : string) :
  Blank.all_space s = true -> Str.trimStart s = EmptyString.
Proof.
  induction s as [|c s IH]; simpl; [reflexivity|].
  intros H. apply andb_true_iff in H as [Hc Hs]. rewrite Hc. now apply IH.
Qed.

Lemma trim_all_space (s : string) :
  Blank.all_space s = true -> Str.trim s = EmptyString.
Proof.
  intros H. unfold Str.trim. now rewrite (trimStart_all_space s H).
Qed.

(** X7. An utang checkout whose customer name is empty or made of white
    space only is refused with 'Enter customer name', and neither the page
    state nor the database changes. *)
Theorem blank_customer_name_is_refused (uid : uuid) (st : state) (d : db) :
  paymentType st = utang -> cart st <> [] ->
  Blank.all_space (utangCustomerName st) = true ->
  handleCheckout uid st d = (EnterCustomerName, st, d).
Proof.
  intros P NE B. unfold handleCheckout.
  destruct (cart st) as [|l c]; [contradiction|].
  rewrite P, (trim_all_space _ B). reflexivity.
Qed.

Lemma blank_customer_name_is_refused_witness :
  handleCheckout alice (utang_state scenario_cart "   " shop) shop
  = (EnterCustomerName, utang_state scenario_cart "   " shop, shop).
Proof.
  apply blank_customer_name_is_refused;
    [reflexivity | discriminate | reflexivity].
Defined.

(** X8. A cash checkout never creates a customer and never writes the
    credit ledger, whatever its outcome. *)
Theorem cash_checkout_leaves_customers_and_ledger (uid : uuid) (st : state) (d : db) :
  paymentType st = cash ->
  let '(_, st', d') := handleCheckout uid st d in
  Db.customers d' = Db.customers d
  /\ utang_ledger d' = utang_ledger d
  /\ POS.customers st' = POS.customers st.
Proof.
  intros P. unfold handleCheckout.
  destruct (cart st) as [|l c] eqn:C; [auto|]. rewrite <- C. clear C l c.
  rewrite P. simpl.
  destruct (cashReceived st <? subtotal (cart st)); [auto|].
  unfold resolveCustomer. rewrite P.
  destruct (insert_sale uid (salePayload uid st None) d) as [[sale d2]|e] eqn:S;
    [|auto].
  apply insert_sale_ok in S as (-> & _).
  destruct (insert_sale_items uid _ _) as [d3|e] eqn:I; [|auto].
  apply insert_sale_items_ok in I as (_ & _ & _ & Ic & Iu & _).
  unfold postLedger. rewrite P. auto.
Qed.

Lemma cash_checkout_leaves_customers_and_ledger_witness :
  let '(_, st', d') :=
    handleCheckout alice (cash_state scenario_cart (pesos 100)) shop_with_maria in
  Db.customers d' = [maria] /\ utang_ledger d' = [] /\ POS.customers st' = [].
Proof.
  exact (cash_checkout_leaves_customers_and_ledger
           alice (cash_state scenario_cart (pesos 100)) shop_with_maria eq_refl).
Defined.

Lemma postLedger_appends (uid : uuid) (st : state) (customerId : option uuid)
      (sale : sale_row) (d : db) :
  let d' := postLedger uid st customerId sale d in
  user_roles d' = user_roles d /\ profiles d' = profiles d
  /\ exists l, utang_ledger d' = utang_ledger d ++ l.
Proof.
  unfold postLedger.
  destruct (paymentType st), customerId;
    try (repeat split; exists []; now rewrite app_nil_r).
  unfold insert_utang.
  destruct (negb (insert_utang_check _ _ _));
    [repeat split; exists []; now rewrite app_nil_r|].
  destruct (negb _); simpl;
    [repeat split; exists []; now rewrite app_nil_r|].
  repeat split. eexists. reflexivity.
Qed.

Lemma resolveCustomer_appends (uid : uuid) (st : state) (d : db)
      (cid : option uuid) (st1 : state) (d1 : db) :
  resolveCustomer uid st d = Ok (cid, st1, d1) ->
  (exists l, Db.customers d1 = Db.customers d ++ l)
  /\ (next_uuid d <= next_uuid d1)%nat.
Proof.
  unfold resolveCustomer. destruct (paymentType st).
  - intros [= _ _ <-]. split; [exists []; now rewrite app_nil_r | lia].
  - destruct (findCustomer _ _).
    + intros [= _ _ <-]. split; [exists []; now rewrite app_nil_r | lia].
    + unfold insert_customer, insert_customers_check. simpl.
      intros [= _ _ <-]. simpl. split; [eexists; reflexivity | lia].
Qed.

(** X9. Whatever its outcome, a checkout only appends to the sales, sale
    lines, customers and ledger tables, leaves role assignments and
    profiles alone, and changes nothing of a product but its stock: no
    product is added or removed, and names, prices, stock thresholds and
    owners stay. *)
Theorem checkout_only_appends (uid : uuid) (st : state) (d : db) :
  let '(_, _, d') := handleCheckout uid st d in
  (exists l, sales d' = sales d ++ l)
  /\ (exists l, sale_items d' = sale_items d ++ l)
  /\ (exists l, Db.customers d' = Db.customers d ++ l)
  /\ (exists l, utang_ledger d' = utang_ledger d ++ l)
  /\ user_roles d' = user_roles d
  /\ profiles d' = profiles d
  /\ map (fun p => with_stock 0 p) (products d')
     = map (fun p => with_stock 0 p) (products d).
Proof.
  pose proof (handleCheckout_trace uid st d) as T.
  destruct (handleCheckout uid st d) as [[o st'] d'].
  assert (Same : forall d0 : db, d0 = d ->
            (exists l, sales d0 = sales d ++ l)
            /\ (exists l, sale_items d0 = sale_items d ++ l)
            /\ (exists l, Db.customers d0 = Db.customers d ++ l)
            /\ (exists l, utang_ledger d0 = utang_ledger d ++ l)
            /\ user_roles d0 = user_roles d
            /\ profiles d0 = profiles d
            /\ map (fun p => with_stock 0 p) (products d0)
               = map (fun p => with_stock 0 p) (products d)).
  { intros d0 ->. repeat split; exists []; now rewrite app_nil_r. }
  destruct (resolveCustomer_ok uid st d)
    as (cid0 & st0 & d0 & R0 & Hp & Hs & Hi & Hu & Hr & Hpr & _).
  destruct (resolveCustomer_appends _ _ _ _ _ _ R0) as [[lc Hc] _].
  destruct o.
  - destruct T as [_ ->]. now apply Same.
  - destruct T as (_ & _ & ->). now apply Same.
  - destruct T as (_ & _ & ->). now apply Same.
  - contradiction.
  - destruct T as (cid & d1 & R & _ & ->). rewrite R0 in R.
    injection R as _ _ <-. rewrite Hp, Hs, Hi, Hu, Hr, Hpr.
    repeat split; try (exists []; now rewrite app_nil_r). now exists lc.
  - destruct T as (cid & d1 & sale & R & _ & _ & ->). rewrite R0 in R.
    injection R as _ _ <-. simpl. rewrite Hp, Hs, Hi, Hu, Hr, Hpr.
    repeat split; try (exists []; now rewrite app_nil_r);
      [now exists [sale] | now exists lc].
  - destruct T as (cid & d1 & d3 & _ & R & _ & I & ->). rewrite R0 in R.
    injection R as _ _ <-.
    apply insert_sale_items_ok in I as (Ip & Ii & Is & Ic & Iu & Ir & Ipr).
    destruct (postLedger_frame uid st cid sale d3) as (Lp & Ls & Li & Lc).
    destruct (postLedger_appends uid st cid sale d3) as (Lr & Lpr & [lu Lu]).
    rewrite Lp, Ls, Li, Lc, Lr, Lpr, Lu, Ip, Ii, Is, Ic, Iu, Ir, Ipr. simpl.
    rewrite Hp, Hs, Hi, Hu, Hr, Hpr.
    repeat split; eauto.
    rewrite map_map. apply map_ext. intros p. now destruct p.
Qed.

End CheckoutEffects.

(** ** A completed sale on the transactions page and the dashboard *)
Section SaleViews.
Import Db POS Spec Samples.











End SaleViews.

(** ** The ledger as the pages show it *)
Section LedgerViews.
Import Db Spec Samples.

Lemma sums_after_entry (uid : uuid) (entry : utang_row) (d3 d : db) (k : uuid) :
  utang_ledger d3 = utang_ledger d ->
  u_owner_user_id entry = uid ->
  sum_of credit k (select_utang uid (add_utang entry d3))
  = sum_of credit k (select_utang uid d)
    + (if Nat.eqb (u_customer_id entry) k
       then match u_type entry with credit => u_amount entry | payment => 0 end
       else 0)
  /\ sum_of payment k (select_utang uid (add_utang entry d3))
     = sum_of payment k (select_utang uid d)
       + (if Nat.eqb (u_customer_id entry) k
          then match u_type entry with credit => 0 | payment => u_amount entry end
          else 0).
Proof.
  intros Hl Ho. rewrite (select_utang_add uid entry d3 Ho).
  assert (E : select_utang uid d3 = select_utang uid d)
    by (unfold select_utang; now rewrite Hl).
  rewrite E, !sum_of_app.
  assert (S1 : forall t, sum_of t k [entry]
                         = if Nat.eqb (u_customer_id entry) k
                              && match u_type entry, t with
                                 | credit, credit | payment, payment => true
                                 | _, _ => false
                                 end
                           then u_amount entry else 0).
  { intros t. rewrite sum_of_cons. unfold sum_of. simpl.
    destruct (Nat.eqb (u_customer_id entry) k && _); lia. }
  rewrite !S1.
  destruct (Nat.eqb (u_customer_id entry) k), (u_type entry); simpl; split; reflexivity.
Qed.





(** X14. After a recorded payment the payments of the customer do not
    exceed the credits (over the rows the principal sees): the page never
    lets a customer overpay. *)
Theorem recorded_payment_never_overpays (uid : uuid) (st : Customers.state) (d : db)
        (sel : Customers.Customer) :
  Customers.selectedCustomer st = Some sel ->
  In sel (Customers.fetchCustomers uid d) ->
  let '(o, _, d') := Customers.handlePayment uid st d in
  forall amount, o = Customers.PaymentRecorded amount ->
    sum_of payment (Customers.id sel) (select_utang uid d')
    <= sum_of credit (Customers.id sel) (select_utang uid d').
Proof.
  intros Hsel Hin.
  destruct (fetchCustomers_balance uid d sel Hin) as (Hb & Hrow).
  unfold Customers.handlePayment. rewrite Hsel, Hb.
  destruct ((Customers.paymentAmount st <=? 0)
            || (Customers.paymentAmount st >? currentBalance uid (Customers.id sel) d))
           eqn:V; [discriminate|].
  apply orb_false_iff in V as [V1 V2].
  apply Z.leb_gt in V1. rewrite Z.gtb_ltb in V2. apply Z.ltb_ge in V2.
  rewrite (insert_payment_succeeds
             uid (Customers.paymentPayload uid sel (Customers.paymentAmount st)) d
             eq_refl eq_refl eq_refl Hrow).
  intros amount _.
  match goal with
  | |- context [add_utang ?e d] =>
      destruct (sums_after_entry uid e d d (Customers.id sel) eq_refl eq_refl)
        as [H1 H2]
  end.
  rewrite H1, H2. simpl. rewrite Nat.eqb_refl.
  unfold currentBalance in V2. lia.
Qed.

Lemma recorded_payment_never_overpays_witness :
  let '(_, _, d') := Customers.handlePayment alice (paying (pesos 90)) marias_tab in
  sum_of payment 7%nat (select_utang alice d')
  <= sum_of credit 7%nat (select_utang alice d').
Proof.
  pose proof (recorded_payment_never_overpays alice (paying (pesos 90)) marias_tab
                maria_selected eq_refl (or_introl eq_refl)) as H.
  destruct (Customers.handlePayment alice (paying (pesos 90)) marias_tab)
    as [[o st'] d'] eqn:E.
  apply (H (pesos 90)). vm_compute in E. now injection E as <- _ _.
Defined.

(** X15. Whatever handlePayment does for one principal, every other
    principal sees the same ledger rows as before, hence the same
    balances. *)
Theorem payment_is_invisible_to_others (uid other : uuid) (st : Customers.state)
        (d : db) :
  other <> uid ->
  let '(_, _, d') := Customers.handlePayment uid st d in
  select_utang other d' = select_utang other d
  /\ forall k, currentBalance other k d' = currentBalance other k d.
Proof.
  intros Hne. unfold Customers.handlePayment.
  destruct (Customers.selectedCustomer st) as [sel|]; [|auto].
  destruct ((Customers.paymentAmount st <=? 0) || _); [auto|].
  destruct (insert_utang uid _ d) as [d'|e] eqn:I; [|auto].
  apply insert_utang_ok in I as (row & -> & Ho).
  assert (E : select_utang other (add_utang row d) = select_utang other d).
  { unfold select_utang. simpl. rewrite filter_app. simpl.
    rewrite Ho. apply Nat.eqb_neq in Hne. rewrite Nat.eqb_sym, Hne.
    apply app_nil_r. }
  split; [exact E|]. intros k. unfold currentBalance. now rewrite E.
Qed.

Lemma payment_is_invisible_to_others_witness :
  let '(_, _, d') := Customers.handlePayment alice (paying (pesos 50)) marias_tab in
  select_utang bob d' = select_utang bob marias_tab.
Proof.
  pose proof (payment_is_invisible_to_others alice bob (paying (pesos 50)) marias_tab
                ltac:(discriminate)) as H.
  destruct (Customers.handlePayment alice (paying (pesos 50)) marias_tab)
    as [[o st'] d'].
  exact (proj1 H).
Defined.

End LedgerViews.

(** ** Customers: adding one, the list of debtors *)
Section CustomerLists.
Import Db Spec Samples.











End CustomerLists.

(** ** Role bootstrap: repeated and successive calls, the two variants *)
Section RoleBootstrapMore.
Import Db Roles RoleRuns Samples.

Lemma find_is_head_of_filter {A : Type} (f : A -> bool) (l : list A) :
  find f l = hd_error (filter f l).
Proof.
  induction l as [|a l IH]; simpl; [reflexivity|].
  now destruct (f a).
Qed.

Lemma existing_role_roles_of (u : uuid) (d : db) :
  existing_role u d = option_map ur_role (hd_error (roles_of u d)).
Proof. unfold existing_role, roles_of. now rewrite find_is_head_of_filter. Qed.

Lemma has_role_roles_of_nil (u : uuid) (r : app_role) (d : db) :
  roles_of u d = [] -> has_role u r d = false.
Proof.
  unfold roles_of, has_role. intros H.
  induction (user_roles d) as [|x xs IH]; simpl in *; [reflexivity|].
  destruct (Nat.eqb (ur_user_id x) u); [discriminate|]. simpl. now apply IH.
Qed.

Lemma has_admin_admins (d : db) :
  has_admin d = match admins d with [] => false | _ :: _ => true end.
Proof.
  unfold has_admin, admins.
  induction (user_roles d) as [|x xs IH]; simpl; [reflexivity|].
  destruct (app_role_eqb (ur_role x) admin); simpl; [reflexivity | exact IH].
Qed.

(** The outcome of ensure_my_role in terms of the caller's assignments. *)
Lemma ensure_my_role_cases (u : uuid) (d : db) :
  match roles_of u d with
  | [] =>
      ensure_my_role (Some u) d
      = Ok (assigned_role (has_admin d),
            add_user_role {| ur_user_id := u;
                             ur_role := assigned_role (has_admin d) |} d)
  | x :: _ => ensure_my_role (Some u) d = Ok (ur_role x, d)
  end.
Proof.
  unfold ensure_my_role. rewrite existing_role_roles_of.
  destruct (roles_of u d) as [|x xs] eqn:E; simpl; [|reflexivity].
  unfold insert_user_role. now rewrite (has_role_roles_of_nil _ _ _ E).
Qed.

Lemma roles_of_add (u v : uuid) (r : app_role) (d : db) :
  roles_of u (add_user_role {| ur_user_id := v; ur_role := r |} d)
  = roles_of u d ++ (if Nat.eqb v u then [{| ur_user_id := v; ur_role := r |}] else []).
Proof. unfold roles_of. simpl. now rewrite filter_app. Qed.

(** X20. ensure_my_role is idempotent: a second call by the same principal
    returns the role of the first and leaves the database as the first
    call left it. *)
Theorem ensure_my_role_is_idempotent (u : uuid) (d d1 : db) (r : app_role) :
  ensure_my_role (Some u) d = Ok (r, d1) ->
  ensure_my_role (Some u) d1 = Ok (r, d1).
Proof.
  intros H. pose proof (ensure_my_role_cases u d) as C.
  destruct (roles_of u d) as [|x xs] eqn:E.
  - rewrite C in H. injection H as <- <-.
    pose proof (ensure_my_role_cases
                  u (add_user_role {| ur_user_id := u;
                                      ur_role := assigned_role (has_admin d) |} d)) as C1.
    rewrite roles_of_add, E, Nat.eqb_refl in C1. exact C1.
  - rewrite C in H. injection H as <- <-. exact C.
Qed.

Lemma ensure_my_role_is_idempotent_witness :
  ensure_my_role (Some 8%nat)
                 (add_user_role {| ur_user_id := 8%nat; ur_role := admin |}
                                (db_of_roles []))
  = Ok (admin, add_user_role {| ur_user_id := 8%nat; ur_role := admin |}
                             (db_of_roles [])).
Proof.
  exact (ensure_my_role_is_idempotent 8%nat (db_of_roles []) _ admin eq_refl).
Defined.

Lemma cashier_rows_of (w : uuid) (vs : list uuid) :
  NoDup vs ->
  filter (fun r => Nat.eqb (ur_user_id r) w)
         (map (fun v => {| ur_user_id := v; ur_role := cashier |}) vs)
  = if in_dec Nat.eq_dec w vs
    then [{| ur_user_id := w; ur_role := cashier |}] else [].
Proof.
  induction vs as [|v vs IHv]; simpl; [reflexivity|].
  intros ND. inversion ND as [|? ? Hnot ND']; subst.
  destruct (Nat.eqb_spec v w) as [E|Hne].
  - subst v. destruct (Nat.eq_dec w w) as [E|N]; [|contradiction]. f_equal.
    rewrite (IHv ND'). destruct (in_dec Nat.eq_dec w vs); [contradiction|reflexivity].
  - destruct (Nat.eq_dec v w) as [E|N]; [contradiction|].
    rewrite (IHv ND'). now destruct (in_dec Nat.eq_dec w vs).
Qed.

Lemma bootstrap_all_keeps_shape (u : uuid) (callers : list uuid) :
  forall (vs : list uuid) (d : db),
    user_roles d
    = {| ur_user_id := u; ur_role := admin |}
        :: map (fun v => {| ur_user_id := v; ur_role := cashier |}) vs ->
    NoDup vs -> ~ In u vs ->
    exists ws,
      user_roles (bootstrap_all callers d)
      = {| ur_user_id := u; ur_role := admin |}
          :: map (fun v => {| ur_user_id := v; ur_role := cashier |}) (vs ++ ws)
      /\ NoDup (vs ++ ws) /\ ~ In u (vs ++ ws)
      /\ forall v, In v (vs ++ ws) <-> In v vs \/ (In v callers /\ v <> u).
Proof.
  induction callers as [|w callers IH]; intros vs d Hd ND Hu; simpl.
  - exists []. rewrite app_nil_r. repeat split; try assumption; tauto.
  - assert (A : has_admin d = true).
    { unfold has_admin. rewrite Hd. reflexivity. }
    assert (Rw : roles_of w d
                 = (if Nat.eqb u w then [{| ur_user_id := u; ur_role := admin |}] else [])
                     ++ (if in_dec Nat.eq_dec w vs
                         then [{| ur_user_id := w; ur_role := cashier |}] else [])).
    { unfold roles_of. rewrite Hd. simpl.
      rewrite (cashier_rows_of w vs ND). now destruct (Nat.eqb u w). }
    pose proof (ensure_my_role_cases w d) as C. rewrite Rw in C.
    destruct (Nat.eqb_spec u w) as [<-|Hne]; simpl in C.
    + rewrite C. destruct (IH vs d Hd ND Hu) as (ws & H1 & H2 & H3 & H4).
      exists ws. repeat split; try assumption.
      * intros Hv. apply H4 in Hv. tauto.
      * intros [Hv|[[<-|Hv] Hn]]; apply H4; tauto.
    + destruct (in_dec Nat.eq_dec w vs) as [Hin|Hnin]; simpl in C; rewrite C.
      * destruct (IH vs d Hd ND Hu) as (ws & H1 & H2 & H3 & H4).
        exists ws. repeat split; try assumption.
        -- intros Hv. apply H4 in Hv. tauto.
        -- intros [Hv|[[<-|Hv] Hn]]; apply H4; tauto.
      * rewrite A. simpl.
        destruct (IH (vs ++ [w])
                     (add_user_role {| ur_user_id := w; ur_role := cashier |} d))
          as (ws & H1 & H2 & H3 & H4).
        -- simpl. rewrite Hd. simpl. now rewrite map_app.
        -- apply NoDup_app; [exact ND | repeat constructor; intros [] |].
           intros a Ha [<-|[]]. contradiction.
        -- intros Hin. apply in_app_or in Hin as [Hin|[E|[]]]; [contradiction|].
           now apply Hne.
        -- exists (w :: ws). rewrite <- app_assoc in H1, H2, H3, H4. simpl in *.
           repeat split; try assumption.
           ++ intros Hv. apply H4 in Hv. rewrite in_app_iff in Hv. simpl in Hv.
              destruct Hv as [[Hv|[<-|[]]]|Hv]; try tauto.
              right. split; [now left | intros E; now apply Hne].
           ++ intros Hv. apply H4. rewrite in_app_iff. simpl.
              destruct Hv as [Hv|[[<-|Hv] Hn]]; tauto.
Qed.

(** X21. When principals register one after the other on a database
    without role assignments, the first caller becomes the only admin and
    every other caller gets exactly one assignment, cashier: the table is
    the first caller's admin row followed by one cashier row per other
    caller. *)
Theorem successive_registrations (u : uuid) (rest : list uuid) (d : db) :
  user_roles d = [] ->
  exists cashiers,
    user_roles (bootstrap_all (u :: rest) d)
    = {| ur_user_id := u; ur_role := admin |}
        :: map (fun v => {| ur_user_id := v; ur_role := cashier |}) cashiers
    /\ NoDup cashiers
    /\ (forall v, In v cashiers <-> In v rest /\ v <> u)
    /\ admins (bootstrap_all (u :: rest) d) = [{| ur_user_id := u; ur_role := admin |}].
Proof.
  intros Hd. simpl.
  pose proof (ensure_my_role_cases u d) as C.
  unfold roles_of in C. rewrite Hd in C. simpl in C. rewrite C.
  assert (A : has_admin d = false) by (unfold has_admin; now rewrite Hd).
  rewrite A. simpl.
  destruct (bootstrap_all_keeps_shape
              u rest [] (add_user_role {| ur_user_id := u; ur_role := admin |} d))
    as (ws & H1 & H2 & H3 & H4).
  - simpl. now rewrite Hd.
  - constructor.
  - intros [].
  - simpl in *. exists ws. split; [exact H1|]. split; [exact H2|]. split.
    + intros v. rewrite H4. tauto.
    + unfold admins. rewrite H1. simpl. f_equal.
      clear. induction ws as [|w ws IH]; simpl; [reflexivity | exact IH].
Qed.

Lemma successive_registrations_witness :
  user_roles (bootstrap_all [1%nat; 2%nat; 1%nat; 3%nat; 2%nat] (db_of_roles []))
  = [ {| ur_user_id := 1%nat; ur_role := admin |};
      {| ur_user_id := 2%nat; ur_role := cashier |};
      {| ur_user_id := 3%nat; ur_role := cashier |} ].
Proof.
  destruct (successive_registrations 1%nat [2%nat; 1%nat; 3%nat; 2%nat]
                                     (db_of_roles []) eq_refl)
    as (cashiers & H & _).
  reflexivity.
Defined.

(** X22. The edge function and the database function agree for a caller
    with at most one role assignment: same role, same database; without a
    user both refuse. *)
Theorem edge_function_agrees_with_rpc (u : uuid) (d : db) :
  (List.length (roles_of u d) <= 1)%nat ->
  EdgeRole.ensure_role None d = (EdgeRole.Unauthorized401, d)
  /\ ensure_my_role None d = Err NotAuthenticated
  /\ exists r d1,
      ensure_my_role (Some u) d = Ok (r, d1)
      /\ EdgeRole.ensure_role (Some u) d = (EdgeRole.RoleJson r, d1).
Proof.
  intros Hlen. split; [reflexivity|]. split; [reflexivity|].
  pose proof (ensure_my_role_cases u d) as C.
  unfold EdgeRole.ensure_role. fold (roles_of u d). fold (admins d).
  destruct (roles_of u d) as [|x [|y ys]] eqn:E; simpl in Hlen; [| |lia].
  - do 2 eexists. split; [exact C|]. simpl.
    rewrite has_admin_admins.
    destruct (admins d); simpl; now rewrite (has_role_roles_of_nil _ _ _ E).
  - do 2 eexists. split; [exact C|]. reflexivity.
Qed.

Lemma edge_function_agrees_with_rpc_witness :
  EdgeRole.ensure_role (Some 8%nat) (db_of_roles [])
  = (EdgeRole.RoleJson admin,
     add_user_role {| ur_user_id := 8%nat; ur_role := admin |} (db_of_roles [])).
Proof.
  destruct (edge_function_agrees_with_rpc 8%nat (db_of_roles []) (Nat.le_0_l 1))
    as (_ & _ & r & d1 & H1 & H2).
  etransitivity; [exact H2|]. vm_compute in H1. now injection H1 as <- <-.
Defined.

Lemma own_rows_visible (u : uuid) (d : db) :
  filter (fun r => Nat.eqb (ur_user_id r) u) (AuthCtx.select_user_roles u d)
  = roles_of u d.
Proof.
  unfold AuthCtx.select_user_roles, roles_of.
  induction (user_roles d) as [|x xs IH]; simpl; [reflexivity|].
  destruct (Nat.eqb_spec (ur_user_id x) u) as [E|E].
  - rewrite <- E at 1. rewrite Nat.eqb_refl. simpl.
    apply Nat.eqb_eq in E. rewrite E. now f_equal.
  - destruct (Nat.eqb u (ur_user_id x) || has_role u admin d); simpl; [|exact IH].
    apply Nat.eqb_neq in E. now rewrite E.
Qed.

(** X23. With the database function deployed and not yet flagged as
    missing, ensureRole leaves a signed-in user who had at most one role
    assignment with exactly one, shown by the context; a user who had one
    keeps it and nothing is written, and a user who had none becomes admin
    exactly when no admin existed. *)
Theorem ensureRole_settles_the_role (u : uuid) (c : AuthCtx.ctx) (d : db) :
  AuthCtx.ensureRoleRpcUnavailable c = false ->
  (List.length (roles_of u d) <= 1)%nat ->
  let '(c', d') := AuthCtx.ensureRole true u c d in
  exists r,
    AuthCtx.role c' = Some r
    /\ roles_of u d' = [{| ur_user_id := u; ur_role := r |}]
    /\ (roles_of u d <> [] -> d' = d)
    /\ (roles_of u d = [] -> (r = admin <-> admins d = [])).
Proof.
  intros Hflag Hlen. unfold AuthCtx.ensureRole, AuthCtx.fetchRole.
  rewrite own_rows_visible.
  pose proof (ensure_my_role_cases u d) as C.
  destruct (roles_of u d) as [|x [|y ys]] eqn:E; simpl in Hlen; [| |lia].
  - cbn -[ensure_my_role]. rewrite Hflag. cbn -[ensure_my_role]. rewrite C.
    rewrite own_rows_visible, roles_of_add, E, Nat.eqb_refl. simpl.
    rewrite roles_of_add, E, Nat.eqb_refl. simpl.
    eexists. split; [reflexivity|]. split; [reflexivity|].
    split; [congruence|]. intros _. rewrite has_admin_admins.
    destruct (admins d); simpl; split; congruence.
  - simpl. exists (ur_role x). split; [reflexivity|]. split.
    + f_equal. destruct x as [xu xr]. simpl.
      assert (In {| ur_user_id := xu; ur_role := xr |} (roles_of u d))
        by (rewrite E; now left).
      unfold roles_of in H. apply filter_In in H as [_ H]. simpl in H.
      apply Nat.eqb_eq in H. now subst.
    + split; [reflexivity | discriminate].
Qed.

Lemma ensureRole_settles_the_role_witness :
  let '(c', d') :=
    AuthCtx.ensureRole true 8%nat
                       {| AuthCtx.role := None;
                          AuthCtx.ensureRoleRpcUnavailable := false |}
                       (db_of_roles []) in
  AuthCtx.role c' = Some admin.
Proof.
  pose proof (ensureRole_settles_the_role
                8%nat {| AuthCtx.role := None; AuthCtx.ensureRoleRpcUnavailable := false |}
                (db_of_roles []) eq_refl (Nat.le_0_l 1)) as H.
  destruct (AuthCtx.ensureRole true 8%nat _ (db_of_roles [])) as [c' d'].
  destruct H as (r & Hr & _ & _ & Ha). rewrite Hr. f_equal.
  now apply Ha.
Defined.

End RoleBootstrapMore.

(** ** The product PIN: signup, verification, the dialog *)
Section PinGate.
Import Db Samples ProductsPage.

Variable crypt : string -> string -> string.

Lemma verify_true (uid : uuid) (_pin : string) (d : db) :
  Pin.verify_my_product_pin crypt (Some uid) _pin d = true <->
  exists p h, In p (profiles d) /\ pr_user_id p = uid
              /\ pr_product_pin_hash p = Some h /\ crypt _pin h = h.
Proof.
  unfold Pin.verify_my_product_pin. rewrite existsb_exists. split.
  - intros (p & Hin & H). apply andb_true_iff in H as [Hu Hh].
    apply Nat.eqb_eq in Hu. destruct (pr_product_pin_hash p) as [h|] eqn:E;
      [|discriminate].
    apply String.eqb_eq in Hh. exists p, h. auto.
  - intros (p & h & Hin & Hu & Hh & Hc). exists p. split; [exact Hin|].
    rewrite Hu, Nat.eqb_refl, Hh. simpl. apply String.eqb_eq. now symmetry.
Qed.


(** Each step of the page leaves the profiles alone, keeps the form closed
    while the page is locked, and unlocks only on a PIN that verifies. *)
Local Ltac page_step :=
  repeat split; auto using incl_refl; try discriminate; try (intuition congruence).

Lemma step_invariants (uid : uuid) (isAdmin : bool) (a : action)
      (st : state) (d : db) :
  let '(st', d') := step crypt uid isAdmin a (st, d) in
  profiles d' = profiles d
  /\ ((showForm st = true -> pinUnlocked st = true) ->
      (showForm st' = true -> pinUnlocked st' = true))
  /\ (pinUnlocked st' = true ->
      pinUnlocked st = true
      \/ Pin.verify_my_product_pin crypt (Some uid) (pinInput st) d = true)
  /\ (showForm st = false -> incl (products d') (products d)).
Proof.
  unfold step. destruct (enabled isAdmin a st) eqn:En; simpl;
    [|page_step].
  destruct a; simpl in En.
  - unfold openAddWithPin. destruct (pinUnlocked st) eqn:U; simpl;
      page_step.
  - unfold openEditWithPin. destruct (pinUnlocked st) eqn:U; simpl;
      page_step.
  - page_step.
  - unfold handleVerifyPin.
    destruct (Pin.verify_my_product_pin crypt (Some uid) (pinInput st) d) eqn:V; simpl.
    + destruct (pendingEditProduct st); simpl; page_step.
    + page_step.
  - page_step.
  - page_step.
  - unfold handleSave.
    destruct (negb (Str.truthy (name (form st))) || _ || _ || _);
      [page_step|].
    destruct (editing st) as [e|].
    + unfold update_product.
      destruct (existsb _ (products d) && _); simpl;
        page_step.
    + unfold insert_product.
      destruct (negb _); simpl;
        page_step.
  - page_step.
  - unfold handleDelete, delete_product.
    destruct (existsb _ (products d)); simpl; page_step.
    intros _ p Hp. now apply filter_In in Hp as [Hp _].
Qed.

Lemma run_cons (uid : uuid) (isAdmin : bool) (a : action) (actions : list action)
      (sd : state * db) :
  run crypt uid isAdmin (a :: actions) sd
  = run crypt uid isAdmin actions (step crypt uid isAdmin a sd).
Proof. reflexivity. Qed.

(** X25. From the page as it loads, whatever the user does, the product
    form is open only while the page is unlocked, and the page is unlocked
    only if the principal has a profile with a PIN hash on record. *)
Theorem form_needs_unlock (uid : uuid) (isAdmin : bool) (actions : list action)
        (d : db) :
  let '(st', d') := run crypt uid isAdmin actions (initial, d) in
  (showForm st' = true -> pinUnlocked st' = true)
  /\ (pinUnlocked st' = true ->
      exists p h, In p (profiles d) /\ pr_user_id p = uid
                  /\ pr_product_pin_hash p = Some h).
Proof.
  assert (G : forall actions st d0,
             profiles d0 = profiles d ->
             (showForm st = true -> pinUnlocked st = true) ->
             (pinUnlocked st = true ->
              exists p h, In p (profiles d) /\ pr_user_id p = uid
                          /\ pr_product_pin_hash p = Some h) ->
             let '(st', d') := run crypt uid isAdmin actions (st, d0) in
             (showForm st' = true -> pinUnlocked st' = true)
             /\ (pinUnlocked st' = true ->
                 exists p h, In p (profiles d) /\ pr_user_id p = uid
                             /\ pr_product_pin_hash p = Some h)).
  { clear actions. induction actions as [|a actions IH]; intros st d0 Hp H1 H2.
    - simpl. auto.
    - rewrite run_cons.
      pose proof (step_invariants uid isAdmin a st d0) as S.
      destruct (step crypt uid isAdmin a (st, d0)) as [st1 d1].
      destruct S as (Sp & S1 & S2 & _).
      apply IH; [congruence | auto |].
      intros U. destruct (S2 U) as [U0|V]; [auto|].
      apply verify_true in V as (p & h & Hin & Hu & Hh & _).
      rewrite Hp in Hin. eauto. }
  apply G; [reflexivity | discriminate | discriminate].
Qed.

(** X26. For a principal whose profile rows carry no PIN hash the page
    never unlocks: whatever the user does, the form stays closed, and the
    page adds no product and changes none (an admin can still delete). *)
Theorem locked_page_cannot_edit (uid : uuid) (isAdmin : bool)
        (actions : list action) (d : db) :
  (forall p, In p (profiles d) -> pr_user_id p = uid ->
             pr_product_pin_hash p = None) ->
  let '(st', d') := run crypt uid isAdmin actions (initial, d) in
  showForm st' = false /\ pinUnlocked st' = false
  /\ incl (products d') (products d).
Proof.
  intros Hnull.
  assert (G : forall actions st d0,
             profiles d0 = profiles d ->
             showForm st = false -> pinUnlocked st = false ->
             incl (products d0) (products d) ->
             let '(st', d') := run crypt uid isAdmin actions (st, d0) in
             showForm st' = false /\ pinUnlocked st' = false
             /\ incl (products d') (products d)).
  { clear actions. induction actions as [|a actions IH]; intros st d0 Hp F U I.
    - simpl. auto.
    - rewrite run_cons.
      pose proof (step_invariants uid isAdmin a st d0) as S.
      destruct (step crypt uid isAdmin a (st, d0)) as [st1 d1].
      destruct S as (Sp & S1 & S2 & S3).
      assert (U1 : pinUnlocked st1 = false).
      { destruct (pinUnlocked st1) eqn:E; [|reflexivity].
        destruct (S2 eq_refl) as [U0|V]; [congruence|].
        rewrite (verify_null_hash crypt uid d0) in V; [discriminate|].
        rewrite Hp. exact Hnull. }
      assert (F1 : showForm st1 = false).
      { destruct (showForm st1) eqn:E; [|reflexivity].
        assert (pinUnlocked st1 = true) by (apply S1; [congruence | reflexivity]).
        congruence. }
      apply IH; [congruence | exact F1 | exact U1 |].
      eapply incl_tran; [apply (S3 F) | exact I]. }
  apply G; [reflexivity | reflexivity | reflexivity | apply incl_refl].
Qed.

End PinGate.


Lemma locked_page_cannot_edit_witness :
  let '(st', d') :=
    ProductsPage.run Samples.toy_crypt 3%nat true
      [ProductsPage.ClickAdd; ProductsPage.TypePin "0000"; ProductsPage.ClickUnlock;
       ProductsPage.TypeForm Samples.fish_form; ProductsPage.ClickSave]
      (ProductsPage.initial,
       Pin.handle_new_user Samples.toy_crypt "salt" Samples.signup_without_pin
                           Samples.shop) in
  ProductsPage.showForm st' = false
  /\ incl (Db.products d') (Db.products Samples.shop).
Proof.
  pose proof (locked_page_cannot_edit
                Samples.toy_crypt 3%nat true
                [ProductsPage.ClickAdd; ProductsPage.TypePin "0000";
                 ProductsPage.ClickUnlock; ProductsPage.TypeForm Samples.fish_form;
                 ProductsPage.ClickSave]
                (Pin.handle_new_user Samples.toy_crypt "salt" Samples.signup_without_pin
                                     Samples.shop)) as H.
  destruct (ProductsPage.run _ _ _ _ _) as [st' d'].
  destruct H as (H1 & _ & H3).
  - intros p [<-|[]] _. reflexivity.
  - split; [exact H1 | exact H3].
Defined.

(** ** Saving and deleting products; the sale lines' products *)
Section ProductsAndLines.
Import Db Samples ProductsPage Integrity.




(** X28. A product of the principal that a sale line refers to cannot be
    deleted: the statement fails on the foreign key of the sale lines and
    handleDelete leaves the database as it was. *)
Theorem sold_product_cannot_be_deleted (uid id : uuid) (d : db) :
  (exists p r, In p (products d) /\ p_id p = id /\ p_owner_user_id p = uid
               /\ In r (sale_items d) /\ si_product_id r = id) ->
  delete_product uid id d = Err ForeignKeyViolation
  /\ handleDelete uid id d = d.
Proof.
  intros (p & r & Hp & Hid & Ho & Hr & Hrid).
  assert (E : delete_product uid id d = Err ForeignKeyViolation).
  { unfold delete_product.
    assert (X : existsb (fun p0 => delete_product_hits uid id p0
                                   && existsb (fun r0 => Nat.eqb (si_product_id r0) (p_id p0))
                                              (sale_items d))
                        (products d) = true).
    { apply existsb_exists. exists p. split; [exact Hp|].
      unfold delete_product_hits. rewrite Hid, Ho, !Nat.eqb_refl. simpl.
      apply existsb_exists. exists r. split; [exact Hr|].
      rewrite Hrid. apply Nat.eqb_refl. }
    now rewrite X. }
  split; [exact E|]. unfold handleDelete. now rewrite E.
Qed.

Lemma sold_product_cannot_be_deleted_witness :
  let '(_, _, d') :=
    POS.handleCheckout alice (cash_state scenario_cart (pesos 100)) shop in
  handleDelete alice 1%nat d' = d'.
Proof.
  destruct (POS.handleCheckout alice (cash_state scenario_cart (pesos 100)) shop)
    as [[o st'] d'] eqn:E.
  apply (sold_product_cannot_be_deleted alice 1%nat d').
  vm_compute in E. injection E as _ _ <-.
  do 2 eexists. split; [left; reflexivity|].
  split; [reflexivity|]. split; [reflexivity|].
  split; [left; reflexivity | reflexivity].
Defined.

Lemma product_exists_same_ids (pid : uuid) (d1 d2 : db) :
  map p_id (products d1) = map p_id (products d2) ->
  product_exists pid d1 = product_exists pid d2.
Proof.
  unfold product_exists. intros H.
  assert (G : forall l, existsb (fun p => Nat.eqb (p_id p) pid) l
                        = existsb (fun i => Nat.eqb i pid) (map p_id l)).
  { induction l as [|p l IH]; simpl; [reflexivity | now rewrite IH]. }
  now rewrite !G, H.
Qed.

Lemma integrity_same_tables (d d' : db) :
  sale_items d' = sale_items d ->
  map p_id (products d') = map p_id (products d) ->
  lines_reference_products d -> lines_reference_products d'.
Proof.
  intros Hi Hp Inv r Hr. rewrite Hi in Hr.
  rewrite (product_exists_same_ids _ d' d Hp). now apply Inv.
Qed.

Lemma integrity_insert_row (uid : uuid) (new : sale_item_payload) (d d' : db) :
  insert_sale_item_row uid new d = Ok d' ->
  lines_reference_products d -> lines_reference_products d'.
Proof.
  unfold insert_sale_item_row.
  destruct (negb (insert_sale_items_check uid new d)); [discriminate|].
  destruct (sale_exists (sip_sale_id new) d && product_exists (sip_product_id new) d)
           eqn:C; [|discriminate].
  apply andb_true_iff in C as [_ C]. simpl.
  intros [= <-] Inv r Hr. simpl in Hr.
  match goal with
  | |- product_exists _ (deduct_stock_on_sale ?row ?dd) = true =>
      rewrite (product_exists_same_ids _ (deduct_stock_on_sale row dd) d)
  end.
  - apply in_app_or in Hr as [Hr|[<-|[]]]; [now apply Inv | exact C].
  - simpl. rewrite map_map. apply map_ext. intros p.
    now destruct (Nat.eqb (p_id p) _).
Qed.

Lemma integrity_insert_rows (uid : uuid) (news : list sale_item_payload) :
  forall d d',
    insert_sale_items uid news d = Ok d' ->
    lines_reference_products d -> lines_reference_products d'.
Proof.
  induction news as [|new rest IH]; intros d d' H Inv; simpl in H.
  - now injection H as <-.
  - destruct (insert_sale_item_row uid new d) as [d1|e] eqn:E; [|discriminate].
    eapply IH; [exact H|]. eapply integrity_insert_row; eauto.
Qed.

(** X29. Every sale line keeps naming an existing product: when that holds
    of a database it holds after any request of the data layer, after a
    checkout, after saving the product form and after handleDelete. *)
Theorem sale_lines_keep_their_products (d : db) :
  lines_reference_products d ->
  (forall uid r, lines_reference_products (snd (Api.exec uid r d)))
  /\ (forall uid st, lines_reference_products (snd (POS.handleCheckout uid st d)))
  /\ (forall uid st, lines_reference_products (snd (handleSave uid st d)))
  /\ (forall uid id, lines_reference_products (handleDelete uid id d)).
Proof.
  intros Inv.
  assert (Ex : forall uid r, lines_reference_products (snd (Api.exec uid r d))).
  { intros uid r.
    destruct r as [|new|pid new| |nm contact notes owner| |new| |new|news]; simpl;
      try exact Inv.
    - unfold insert_product. destruct (negb _); simpl; [exact Inv|].
      intros r Hr. simpl in Hr. pose proof (Inv r Hr) as Hex.
      unfold product_exists in *. simpl.
      rewrite existsb_app, Hex. reflexivity.
    - destruct (update_product uid pid new d) as [d'|e] eqn:E; [|exact Inv].
      apply update_product_ok in E as (g & -> & Hg). simpl.
      apply (integrity_same_tables d); [reflexivity | | exact Inv].
      simpl. rewrite map_map. apply map_ext_in. intros p Hin.
      destruct (Hg p Hin) as [E|(_ & _ & E)]; now rewrite E.
    - destruct (insert_utang uid new d) as [d'|e] eqn:E; [|exact Inv].
      apply insert_utang_ok in E as (row & -> & _). exact Inv.
    - destruct (insert_sale uid new d) as [[row d']|e] eqn:E; [|exact Inv].
      apply insert_sale_ok in E as (-> & _). exact Inv.
    - destruct (insert_sale_items uid news d) as [d'|e] eqn:E; [|exact Inv].
      simpl. eapply integrity_insert_rows; eauto. }
  split; [exact Ex|]. split; [|split].
  - intros uid st.
    pose proof (handleCheckout_trace uid st d) as T.
    destruct (POS.handleCheckout uid st d) as [[o st'] d']. simpl.
    destruct (resolveCustomer_ok uid st d)
      as (cid0 & st0 & d0 & R0 & Hp & _ & Hi & _).
    assert (Inv0 : lines_reference_products d0).
    { apply (integrity_same_tables d); [exact Hi | now rewrite Hp | exact Inv]. }
    destruct o.
    + now destruct T as [_ ->].
    + now destruct T as (_ & _ & ->).
    + now destruct T as (_ & _ & ->).
    + contradiction.
    + destruct T as (cid & d1 & R & _ & ->).
      rewrite R0 in R. injection R as _ _ <-. exact Inv0.
    + destruct T as (cid & d1 & sale & R & _ & _ & ->).
      rewrite R0 in R. injection R as _ _ <-.
      apply (integrity_same_tables d0); [reflexivity | reflexivity | exact Inv0].
    + destruct T as (cid & d1 & d3 & _ & R & _ & I & ->).
      rewrite R0 in R. injection R as _ _ <-.
      destruct (postLedger_frame uid st cid sale d3) as (Lp & _ & Li & _).
      apply (integrity_same_tables d3); [exact Li | now rewrite Lp |].
      eapply integrity_insert_rows; [exact I |].
      apply (integrity_same_tables d0); [reflexivity | reflexivity | exact Inv0].
  - intros uid st. unfold handleSave.
    destruct (negb (Str.truthy (name (form st))) || _ || _ || _); [exact Inv|].
    destruct (editing st) as [e|].
    + pose proof (Ex uid (Api.UpdateProduct (p_id e) (payloadOf (form st)))) as X.
      simpl in X.
      now destruct (update_product uid (p_id e) (payloadOf (form st)) d).
    + pose proof (Ex uid (Api.InsertProduct (payloadOf (form st)))) as X.
      simpl in X.
      now destruct (insert_product uid (payloadOf (form st)) d).
  - intros uid id. unfold handleDelete, delete_product.
    destruct (existsb _ (products d)) eqn:X; [exact Inv|].
    intros r Hr. simpl in Hr. pose proof (Inv r Hr) as Hex.
    unfold product_exists in *. simpl.
    apply existsb_exists in Hex as (p & Hp & Hid).
    apply existsb_exists. exists p. split; [|exact Hid].
    apply filter_In. split; [exact Hp|].
    destruct (delete_product_hits uid id p) eqn:Hit; [|reflexivity].
    exfalso.
    assert (Y : existsb (fun p0 => delete_product_hits uid id p0
                                   && existsb (fun r0 => Nat.eqb (si_product_id r0) (p_id p0))
                                              (sale_items d))
                        (products d) = true).
    { apply existsb_exists. exists p. split; [exact Hp|]. rewrite Hit. simpl.
      apply existsb_exists. exists r. split; [exact Hr|].
      apply Nat.eqb_eq in Hid. rewrite Hid. apply Nat.eqb_refl. }
    congruence.
Qed.

Lemma sale_lines_keep_their_products_witness :
  lines_reference_products
    (snd (POS.handleCheckout alice (cash_state scenario_cart (pesos 100)) shop)).
Proof.
  apply (proj1 (proj2 (sale_lines_keep_their_products shop ltac:(intros r [])))).
Defined.

(** X30. The owner policies isolate the principals: a request of the data
    layer other than a sale-line insert or a customer insert naming another
    owner shows only rows of the principal and leaves the products,
    customers and ledger rows of every other owner as they were; and no
    request at all changes the owner of a product. *)
Theorem owner_policies_isolate (uid : uuid) (r : Api.request) (d : db) :
  (Api.under_owner_policies uid r -> Api.isolated uid r d)
  /\ exists added,
      map p_owner_user_id (products (snd (Api.exec uid r d)))
      = map p_owner_user_id (products d) ++ added
      /\ Forall (eq uid) added.
Proof.
  split.
  - apply requests_under_policies_are_isolated.
  - apply product_owner_never_reassigned.
Qed.

Lemma owner_policies_isolate_witness :
  Api.isolated bob
               (Api.UpdateProduct 1%nat
                  {| pp_name := "Mine"; pp_cost_price := 0; pp_selling_price := 0;
                     pp_stock_qty := 0; pp_min_stock_level := 0;
                     pp_owner_user_id := None |})
               shop.
Proof.
  apply (proj1 (owner_policies_isolate bob _ shop)). exact I.
Defined.

End ProductsAndLines.
